(** * Shallow embedding of assets/agent-hooks/claude-code/langfuse-hook.py

    Python strings are modelled as Rocq strings whose characters are the
    code points 0..255 (Latin-1); character classes ([\s], [\w], [strip])
    follow Python's Unicode semantics on that range.  JSON values decoded
    by [json.loads] are the inductive [json]; a Python dict decoded from
    JSON is an association list.  Exceptions raised by the code are the
    [Raise] case of the result monad [res]. *)

From Stdlib Require Import String Ascii List ZArith Bool Lia DecimalString.
Import ListNotations.
Open Scope string_scope.
Open Scope list_scope.
Set Warnings "-register-all".

(** ** Python values and exceptions *)

Inductive json : Type :=
| JNull
| JBool (b : bool)
| JNum (n : Z)
| JStr (s : string)
| JArr (l : list json)
| JObj (o : list (string * json)).

Inductive exn : Type :=
| TypeError
| AttributeError
| KeyError
| IsADirectoryError.

Inductive res (A : Type) : Type :=
| Ok (a : A)
| Raise (e : exn).
Arguments Ok {A} a.
Arguments Raise {A} e.

Definition bind {A B} (m : res A) (f : A -> res B) : res B :=
  match m with
  | Ok a => f a
  | Raise e => Raise e
  end.

Notation "'let*' x ':=' m 'in' f" := (bind m (fun x => f))
  (at level 200, x name, m at level 100, f at level 200).

(** [bool(v)] *)
Definition truthy (v : json) : bool :=
  match v with
  | JNull => false
  | JBool b => b
  | JNum n => negb (Z.eqb n 0)
  | JStr s => negb (String.eqb s "")
  | JArr l => negb (Nat.eqb (List.length l) 0)
  | JObj o => negb (Nat.eqb (List.length o) 0)
  end.

(** [v or d] *)
Definition py_or (v d : json) : json := if truthy v then v else d.

Fixpoint assoc_get {A} (k : string) (o : list (string * A)) : option A :=
  match o with
  | [] => None
  | (k', v) :: o' => if String.eqb k k' then Some v else assoc_get k o'
  end.

(** [d.get(k, default)] on a dict decoded from JSON *)
Definition dict_get (o : list (string * json)) (k : string) (d : json) : json :=
  match assoc_get k o with Some v => v | None => d end.

(** [v.get(k, default)] on a value that is not known to be a dict:
    only dicts have a [get] method. *)
Definition py_get (v : json) (k : string) (d : json) : res json :=
  match v with
  | JObj o => Ok (dict_get o k d)
  | _ => Raise AttributeError
  end.

(** [hash(v)]: lists and dicts are unhashable. *)
Definition hashable (v : json) : bool :=
  match v with JArr _ | JObj _ => false | _ => true end.

(** [v in {s1, ..., sn}] for a set of string literals *)
Definition in_str_set (v : json) (l : list string) : res bool :=
  if hashable v then
    Ok (match v with JStr s => existsb (String.eqb s) l | _ => false end)
  else Raise TypeError.

(** [v == "s"] *)
Definition eq_str (v : json) (s : string) : bool :=
  match v with JStr s' => String.eqb s' s | _ => false end.

(** [v is None] *)
Definition is_none (v : json) : bool := match v with JNull => true | _ => false end.

(** ** Activity kinds *)

Inductive kind : Type :=
| CODE | BUILD | TEST | GIT | EXPLORE | RESEARCH | SETUP | PLAN | COMMUNICATE | OTHER.

Definition all_kinds : list kind :=
  [CODE; BUILD; TEST; GIT; EXPLORE; RESEARCH; SETUP; PLAN; COMMUNICATE; OTHER].

Definition kind_eqb (k1 k2 : kind) : bool :=
  match k1, k2 with
  | CODE, CODE | BUILD, BUILD | TEST, TEST | GIT, GIT | EXPLORE, EXPLORE
  | RESEARCH, RESEARCH | SETUP, SETUP | PLAN, PLAN
  | COMMUNICATE, COMMUNICATE | OTHER, OTHER => true
  | _, _ => false
  end.

Definition kind_name (k : kind) : string :=
  match k with
  | CODE => "CODE" | BUILD => "BUILD" | TEST => "TEST" | GIT => "GIT"
  | EXPLORE => "EXPLORE" | RESEARCH => "RESEARCH" | SETUP => "SETUP"
  | PLAN => "PLAN" | COMMUNICATE => "COMMUNICATE" | OTHER => "OTHER"
  end.

(** ** Characters (Python [str] semantics on code points 0..255) *)

Definition code (c : ascii) : nat := nat_of_ascii c.

(** [c.isspace()], the class [\s] *)
Definition is_space (c : ascii) : bool :=
  let n := code c in
  ((9 <=? n) && (n <=? 13))%nat || ((28 <=? n) && (n <=? 32))%nat
  || (n =? 133)%nat || (n =? 160)%nat.

(** the class [\w]: [c.isalnum()] or underscore *)
Definition is_word (c : ascii) : bool :=
  let n := code c in
  ((48 <=? n) && (n <=? 57))%nat || ((65 <=? n) && (n <=? 90))%nat
  || ((97 <=? n) && (n <=? 122))%nat || (n =? 95)%nat
  || (n =? 170)%nat || (n =? 178)%nat || (n =? 179)%nat || (n =? 181)%nat
  || (n =? 185)%nat || (n =? 186)%nat || ((188 <=? n) && (n <=? 190))%nat
  || ((192 <=? n) && (n <=? 214))%nat || ((216 <=? n) && (n <=? 246))%nat
  || ((248 <=? n) && (n <=? 255))%nat.

(** ASCII letters and digits, the class [[a-zA-Z0-9]] *)
Definition is_alnum_ascii (c : ascii) : bool :=
  let n := code c in
  ((48 <=? n) && (n <=? 57))%nat || ((65 <=? n) && (n <=? 90))%nat
  || ((97 <=? n) && (n <=? 122))%nat.

Definition lower (c : ascii) : ascii :=
  let n := code c in
  if ((65 <=? n) && (n <=? 90))%nat then ascii_of_nat (n + 32) else c.

(** [re.IGNORECASE] comparison of a pattern character with a subject character *)
Definition eq_ci (p c : ascii) : bool := Ascii.eqb (lower p) (lower c).

Fixpoint strip_left (l : list ascii) : list ascii :=
  match l with
  | c :: l' => if is_space c then strip_left l' else l
  | [] => []
  end.

(** [s.strip()] *)
Definition strip (s : string) : string :=
  string_of_list_ascii (rev (strip_left (rev (strip_left (list_ascii_of_string s))))).

(** [s.replace(old, new)] for a one-character [old] *)
Fixpoint replace_char (c : ascii) (by_ : string) (s : string) : string :=
  match s with
  | EmptyString => EmptyString
  | String x s' =>
      if Ascii.eqb x c then by_ ++ replace_char c by_ s'
      else String x (replace_char c by_ s')
  end.

(** [sep.join(parts)] for a list of strings *)
Fixpoint join (sep : string) (l : list string) : string :=
  match l with
  | [] => ""
  | [x] => x
  | x :: l' => x ++ sep ++ join sep l'
  end.

(** [sep.join(parts)] for a list of Python values: every part must be a [str]. *)
Fixpoint strs_of (l : list json) : res (list string) :=
  match l with
  | [] => Ok []
  | JStr s :: l' => let* r := strs_of l' in Ok (s :: r)
  | _ :: _ => Raise TypeError
  end.

Definition py_join (sep : string) (l : list json) : res string :=
  let* ss := strs_of l in Ok (join sep ss).

(** ** Regular expressions ([re.search] with [re.IGNORECASE])

    The patterns of [classify_activity] use literals, [\b], [\s], [\S],
    [^], [$], groups with alternation, [?] on groups and [+], [*], [?] on
    single-character atoms.  [re_parse] reads exactly that syntax from the
    pattern text of the source; anything else is refused ([None]). *)

Inductive cset : Type :=
| CLit (c : ascii)
| CSpace
| CNonSpace.

Inductive regex : Type :=
| RChar (k : cset)
| RStar (k : cset)
| RPlus (k : cset)
| RBound
| RBol
| REol
| RSeq (r1 r2 : regex)
| RAlt (r1 r2 : regex)
| REps.

Definition cset_match (k : cset) (c : ascii) : bool :=
  match k with
  | CLit p => eq_ci p c
  | CSpace => is_space c
  | CNonSpace => negb (is_space c)
  end.

Definition quant_char (k : cset) (s : list ascii) : regex * list ascii :=
  match s with
  | "+"%char :: s' => (RPlus k, s')
  | "*"%char :: s' => (RStar k, s')
  | "?"%char :: s' => (RAlt (RChar k) REps, s')
  | _ => (RChar k, s)
  end.

Fixpoint p_alt (fuel : nat) (s : list ascii) : option (regex * list ascii) :=
  match fuel with
  | O => None
  | S f =>
      match p_seq f s with
      | None => None
      | Some (r, "|"%char :: s') =>
          match p_alt f s' with
          | Some (r2, s'') => Some (RAlt r r2, s'')
          | None => None
          end
      | Some (r, s') => Some (r, s')
      end
  end
with p_seq (fuel : nat) (s : list ascii) : option (regex * list ascii) :=
  match fuel with
  | O => None
  | S f =>
      match s with
      | [] => Some (REps, [])
      | "|"%char :: _ | ")"%char :: _ => Some (REps, s)
      | _ =>
          match p_atom f s with
          | None => None
          | Some (a, s') =>
              match p_seq f s' with
              | Some (r, s'') => Some (RSeq a r, s'')
              | None => None
              end
          end
      end
  end
with p_atom (fuel : nat) (s : list ascii) : option (regex * list ascii) :=
  match fuel with
  | O => None
  | S f =>
      match s with
      | "("%char :: s' =>
          match p_alt f s' with
          | Some (r, ")"%char :: "?"%char :: s'') => Some (RAlt r REps, s'')
          | Some (r, ")"%char :: "+"%char :: _) => None
          | Some (r, ")"%char :: "*"%char :: _) => None
          | Some (r, ")"%char :: s'') => Some (r, s'')
          | _ => None
          end
      | "\"%char :: "b"%char :: s' => Some (RBound, s')
      | "\"%char :: "s"%char :: s' => Some (quant_char CSpace s')
      | "\"%char :: "S"%char :: s' => Some (quant_char CNonSpace s')
      | "\"%char :: _ => None
      | "^"%char :: s' => Some (RBol, s')
      | "$"%char :: s' => Some (REol, s')
      | "["%char :: _ | "."%char :: _ | "+"%char :: _ | "*"%char :: _
      | "?"%char :: _ | "{"%char :: _ => None
      | c :: s' => Some (quant_char (CLit c) s')
      | [] => None
      end
  end.

Definition re_parse (p : string) : option regex :=
  let l := list_ascii_of_string p in
  match p_alt (4 * List.length l + 4) l with
  | Some (r, []) => Some r
  | _ => None
  end.

(** Matching at a position: [b] is the text before it (reversed), [a] the
    text after it; [k] is the continuation for the rest of the pattern. *)
Fixpoint star_loop (k : cset) (cont : list ascii -> list ascii -> bool)
    (b a : list ascii) : bool :=
  cont b a ||
  match a with
  | c :: a' => cset_match k c && star_loop k cont (c :: b) a'
  | [] => false
  end.

Fixpoint mt (r : regex) (b a : list ascii)
    (cont : list ascii -> list ascii -> bool) : bool :=
  match r with
  | RChar k =>
      match a with
      | c :: a' => cset_match k c && cont (c :: b) a'
      | [] => false
      end
  | RStar k => star_loop k cont b a
  | RPlus k =>
      match a with
      | c :: a' => cset_match k c && star_loop k cont (c :: b) a'
      | [] => false
      end
  | RBound =>
      let w1 := match b with c :: _ => is_word c | [] => false end in
      let w2 := match a with c :: _ => is_word c | [] => false end in
      xorb w1 w2 && cont b a
  | RBol => match b with [] => cont b a | _ => false end
  | REol =>
      match a with
      | [] => cont b a
      | [c] => Ascii.eqb c "010"%char && cont b a
      | _ => false
      end
  | RSeq r1 r2 => mt r1 b a (fun b' a' => mt r2 b' a' cont)
  | RAlt r1 r2 => mt r1 b a cont || mt r2 b a cont
  | REps => cont b a
  end.

Fixpoint search_from (r : regex) (b a : list ascii) : bool :=
  mt r b a (fun _ _ => true) ||
  match a with
  | c :: a' => search_from r (c :: b) a'
  | [] => false
  end.

(** [bool(re.search(pattern, s, re.IGNORECASE))] for [s] a [str]; a
    pattern outside the supported syntax never matches. *)
Definition re_search (p : string) (s : string) : bool :=
  match re_parse p with
  | Some r => search_from r [] (list_ascii_of_string s)
  | None => false
  end.

(** ** classify_activity *)

Definition git_patterns : list string := [
  "\bgit\s+(status|diff|log|show|branch|checkout|merge|rebase|pull|fetch|clone|add|commit|push|stash|reset|cherry-pick)";
  "\bgh\s+"].

Definition test_patterns : list string := [
  "\bcargo\s+nextest\b";
  "\bcargo-nextest\b";
  "\bnextest\s+(run|list)\b";
  "\bcargo\s+test\b";
  "\b(pnpm|npm|yarn|bun)\s+(run\s+)?test\b";
  "\b(pnpm|npm|yarn|bun)\s+exec\s+(jest|vitest|mocha)\b";
  "\bnpx\s+(jest|vitest|mocha|ava|playwright)\b";
  "^\s*jest\s";
  "&&\s*jest\s";
  "\bjest\s+--";
  "\bvitest(\s|$)";
  "\bmocha\s";
  "\bava\s";
  "\bplaywright\s+test\b";
  "\bcypress\s+(run|open)\b";
  "\bpytest\b";
  "\bpython\s+-m\s+(pytest|unittest)\b";
  "\buvx\s+pytest\b";
  "\bgo\s+test\b"].

Definition build_patterns : list string := [
  "\bcargo\s+(build|check|clippy|fmt|bench|doc)\b";
  "\brustfmt\b";
  "\b(pnpm|npm|yarn|bun)\s+(run\s+)?(build|check|lint|typecheck|format|prettier|eslint)\b";
  "\b(pnpm|npm|yarn|bun)\s+(build|check|lint)\b";
  "\bnpx\s+(tsc|eslint|prettier|biome)\b";
  "\btsc(\s|$)";
  "\beslint\s";
  "\bprettier\s";
  "\bbiome\s+(check|lint|format)\b";
  "\bpython\s+-m\s+(mypy|ruff|black|flake8|isort)\b";
  "\bmypy\s";
  "\bruff\s+(check|format)\b";
  "\bblack\s";
  "\bflake8\s";
  "\buvx\s+(mypy|ruff|black|flake8)\b";
  "\bisort\s";
  "\bgo\s+(build|vet|fmt|generate)\b";
  "\bgolangci-lint\b";
  "^\s*make(\s|$)";
  "&&\s*make(\s|$)";
  "\bmake\s+(build|test|check|lint|all|clean)\b";
  "\bdocker\s+(build|compose)\b"].

Definition setup_patterns : list string := [
  "\b(pnpm|npm|yarn|bun)\s+(install|add|remove|update|upgrade|ci)\b";
  "\b(pip|uv)\s+install\b";
  "\buvx\s+\S+";
  "\bcargo\s+(add|remove|update)\b";
  "\bgo\s+(get|mod\s+(download|tidy))\b";
  "\bdocker\s+(pull|run|start|stop|rm|exec)\b";
  "^\s*(chmod|mkdir|cp|mv)\s";
  "&&\s*(chmod|mkdir|cp|mv)\s"].

(** [for pattern in patterns: if re.search(pattern, command, re.IGNORECASE)]:
    [re.search] on a value that is not a [str] raises [TypeError]. *)
Definition any_match (patterns : list string) (command : json) : res bool :=
  match command with
  | JStr s => Ok (existsb (fun p => re_search p s) patterns)
  | _ => match patterns with [] => Ok false | _ => Raise TypeError end
  end.

Definition classify_activity (tool_name : json) (tool_input : json) : res kind :=
  let tool_input := py_or tool_input (JObj []) in
  let* c := in_str_set tool_name ["Edit"; "Write"; "NotebookEdit"] in
  if c then Ok CODE else
  let* c := in_str_set tool_name ["TodoWrite"; "EnterPlanMode"; "ExitPlanMode"] in
  if c then Ok PLAN else
  let* c := in_str_set tool_name ["AskUserQuestion"] in
  if c then Ok COMMUNICATE else
  let* c := in_str_set tool_name ["WebSearch"; "WebFetch"] in
  if c then Ok RESEARCH else
  let* c := in_str_set tool_name ["Read"; "Glob"; "Grep"; "LSP"; "LS"; "Task";
                                  "ListMcpResourcesTool"; "ReadMcpResourceTool"] in
  if c then Ok EXPLORE else
  if eq_str tool_name "Bash" then
    let* command := py_get tool_input "command" (JStr "") in
    let* g := any_match git_patterns command in
    if g then Ok GIT else
    let* t := any_match test_patterns command in
    if t then Ok TEST else
    let* b := any_match build_patterns command in
    if b then Ok BUILD else
    let* s := any_match setup_patterns command in
    if s then Ok SETUP else
    Ok OTHER
  else Ok OTHER.

(** A Bash call with the given command string. *)
Definition bash_input (cmd : string) : json := JObj [("command", JStr cmd)].

Example patterns_parse :
  forallb (fun p => match re_parse p with Some _ => true | None => false end)
    (git_patterns ++ test_patterns ++ build_patterns ++ setup_patterns) = true.
Proof. vm_compute. reflexivity. Qed.

Example classify_samples :
  map (fun c => classify_activity (JStr "Bash") (bash_input c))
    ["pnpm test"; "npm install"; "git status"; "cargo build --release";
     "ls -la"; "uvx ruff check ."; "uvx foo"; "make"; "cd x && make test";
     "GIT   Push"; "digit status"; "vitest"; "pytest -q"; "mkdir -p a";
     "echo mkdir a"; "tsc"; "atsc"]
  = [Ok TEST; Ok SETUP; Ok GIT; Ok BUILD; Ok OTHER; Ok BUILD; Ok SETUP; Ok BUILD;
     Ok BUILD; Ok GIT; Ok OTHER; Ok TEST; Ok TEST; Ok SETUP; Ok OTHER; Ok BUILD;
     Ok OTHER].
Proof. vm_compute. reflexivity. Qed.

(** ** hashlib.sha256 (FIPS 180-4) and generate_deterministic_id *)

Module SHA256.
Open Scope Z_scope.

Definition mask32 : Z := 2 ^ 32 - 1.
Definition w32 (x : Z) : Z := Z.land x mask32.
Definition add32 (x y : Z) : Z := w32 (x + y).
Definition rotr (x : Z) (n : Z) : Z := Z.lor (Z.shiftr x n) (w32 (Z.shiftl x (32 - n))).
Definition shr (x : Z) (n : Z) : Z := Z.shiftr x n.

Definition Ch (e f g : Z) : Z := Z.lxor (Z.land e f) (Z.land (Z.lxor e mask32) g).
Definition Maj (a b c : Z) : Z := Z.lxor (Z.lxor (Z.land a b) (Z.land a c)) (Z.land b c).
Definition Sigma0 (a : Z) : Z := Z.lxor (Z.lxor (rotr a 2) (rotr a 13)) (rotr a 22).
Definition Sigma1 (e : Z) : Z := Z.lxor (Z.lxor (rotr e 6) (rotr e 11)) (rotr e 25).
Definition sigma0 (w : Z) : Z := Z.lxor (Z.lxor (rotr w 7) (rotr w 18)) (shr w 3).
Definition sigma1 (w : Z) : Z := Z.lxor (Z.lxor (rotr w 17) (rotr w 19)) (shr w 10).

Definition K : list Z := [
  1116352408; 1899447441; 3049323471; 3921009573; 961987163; 1508970993;
  2453635748; 2870763221; 3624381080; 310598401; 607225278; 1426881987;
  1925078388; 2162078206; 2614888103; 3248222580; 3835390401; 4022224774;
  264347078; 604807628; 770255983; 1249150122; 1555081692; 1996064986;
  2554220882; 2821834349; 2952996808; 3210313671; 3336571891; 3584528711;
  113926993; 338241895; 666307205; 773529912; 1294757372; 1396182291;
  1695183700; 1986661051; 2177026350; 2456956037; 2730485921; 2820302411;
  3259730800; 3345764771; 3516065817; 3600352804; 4094571909; 275423344;
  430227734; 506948616; 659060556; 883997877; 958139571; 1322822218;
  1537002063; 1747873779; 1955562222; 2024104815; 2227730452; 2361852424;
  2428436474; 2756734187; 3204031479; 3329325298].

(** The eight chaining words a..h. *)
Record hstate := mkH { ha : Z; hb : Z; hc : Z; hd : Z; he : Z; hf : Z; hg : Z; hh : Z }.

Definition H0 : hstate :=
  mkH 0x6a09e667 0xbb67ae85 0x3c6ef372 0xa54ff53a 0x510e527f 0x9b05688c 0x1f83d9ab 0x5be0cd19.

Definition round (s : hstate) (kt wt : Z) : hstate :=
  let t1 := add32 (add32 (add32 (add32 (hh s) (Sigma1 (he s))) (Ch (he s) (hf s) (hg s))) kt) wt in
  let t2 := add32 (Sigma0 (ha s)) (Maj (ha s) (hb s) (hc s)) in
  mkH (add32 t1 t2) (ha s) (hb s) (hc s) (add32 (hd s) t1) (he s) (hf s) (hg s).

(** Message schedule: [ws] holds W_{t-1}, ..., W_0 (newest first). *)
Fixpoint schedule (n : nat) (ws : list Z) : list Z :=
  match n with
  | O => ws
  | S n' =>
      let w := add32 (add32 (add32 (sigma1 (nth 1 ws 0)) (nth 6 ws 0))
                            (sigma0 (nth 14 ws 0))) (nth 15 ws 0) in
      schedule n' (w :: ws)
  end.

Fixpoint be_words (bs : list Z) : list Z :=
  match bs with
  | b0 :: b1 :: b2 :: b3 :: bs' =>
      (b0 * 2 ^ 24 + b1 * 2 ^ 16 + b2 * 2 ^ 8 + b3) :: be_words bs'
  | _ => []
  end.

Definition compress (s : hstate) (block : list Z) : hstate :=
  let w := rev (schedule 48 (rev (be_words block))) in
  let s' := fold_left (fun st '(kt, wt) => round st kt wt) (combine K w) s in
  mkH (add32 (ha s) (ha s')) (add32 (hb s) (hb s')) (add32 (hc s) (hc s'))
      (add32 (hd s) (hd s')) (add32 (he s) (he s')) (add32 (hf s) (hf s'))
      (add32 (hg s) (hg s')) (add32 (hh s) (hh s')).

Definition be_bytes64 (x : Z) : list Z :=
  map (fun i => Z.land (Z.shiftr x (8 * i)) 255) [7; 6; 5; 4; 3; 2; 1; 0].

Definition pad (msg : list Z) : list Z :=
  let n := Z.of_nat (List.length msg) in
  let zeros := Z.to_nat ((55 - n) mod 64) in
  msg ++ [128] ++ repeat 0 zeros ++ be_bytes64 (8 * n).

Fixpoint blocks (fuel : nat) (bs : list Z) : list (list Z) :=
  match fuel with
  | O => []
  | S f => match bs with [] => [] | _ => firstn 64 bs :: blocks f (skipn 64 bs) end
  end.

Definition digest_state (msg : list Z) : hstate :=
  let p := pad msg in fold_left compress (blocks (List.length p) p) H0.

Definition hex_digit (d : Z) : ascii :=
  if d <? 10 then ascii_of_nat (Z.to_nat (48 + d)) else ascii_of_nat (Z.to_nat (87 + d)).

Definition word_hex (w : Z) : list ascii :=
  map (fun i => hex_digit (Z.land (Z.shiftr w (4 * i)) 15)) [7; 6; 5; 4; 3; 2; 1; 0].

Definition words (s : hstate) : list Z :=
  [ha s; hb s; hc s; hd s; he s; hf s; hg s; hh s].

(** [hashlib.sha256(b).hexdigest()] *)
Definition hexdigest (msg : list Z) : string :=
  string_of_list_ascii (flat_map word_hex (words (digest_state msg))).

End SHA256.

(** [s.encode()]: UTF-8 of code points 0..255 *)
Definition encode (s : string) : list Z :=
  flat_map (fun c =>
    let n := Z.of_nat (nat_of_ascii c) in
    if (n <? 128)%Z then [n]
    else [Z.lor 192 (Z.shiftr n 6); Z.lor 128 (Z.land n 63)])
  (list_ascii_of_string s).

(** [generate_deterministic_id(seed, prefix="")]; [prefix] is not used. *)
Definition generate_deterministic_id (seed : string) (prefix : string) : string :=
  substring 0 32 (SHA256.hexdigest (encode seed)).

Example sha256_abc :
  SHA256.hexdigest (encode "abc")
  = "ba7816bf8f01cfea414140de5dae2223b00361a396177a9cb410ff61f20015ad".
Proof. vm_compute. reflexivity. Qed.

Example sha256_empty :
  SHA256.hexdigest (encode "")
  = "e3b0c44298fc1c149afbf4c8996fb92427ae41e4649b934ca495991b7852b855".
Proof. vm_compute. reflexivity. Qed.

Example sha256_two_blocks :
  SHA256.hexdigest (encode "abcdbcdecdefdefgefghfghighijhijkijkljklmklmnlmnomnopnopq")
  = "248d6a61d20638b8e5c026930c3e6039a33ce45964ff2167f6ecedd419db06c1".
Proof. vm_compute. reflexivity. Qed.

Example sha256_latin1 :
  SHA256.hexdigest (encode (String (ascii_of_nat 233) "~"))
  = "ff4b8c7e9f3c168812f212702e584ce7825b640c7dcfc285622a16d875fc1309".
Proof. vm_compute. reflexivity. Qed.

(** ** parse_transcript *)

Record session_metadata := mkMeta {
  cwd : json;
  git_branch : json;
  model : json }.

Record tool_call := mkCall {
  tool_name : json;
  tool_input : json;
  tool_use_id : json;
  activity_kind : kind }.

Record usage := mkUsage {
  u_input_tokens : json;
  u_output_tokens : json;
  u_cache_read_input_tokens : json;
  u_cache_creation_input_tokens : json }.

Record assistant_response := mkResp {
  ar_model : json;
  ar_text_content : option string;
  ar_usage : usage;
  ar_tool_calls : list tool_call;
  ar_timestamp : json }.

Record turn := mkTurn {
  user_message : option string;
  user_timestamp : json;
  assistant : assistant_response }.

Record totals := mkTotals {
  input_tokens : Z;
  output_tokens : Z;
  cache_read_input_tokens : Z;
  cache_creation_input_tokens : Z;
  activity_counts : list (kind * Z) }.

Record result := mkResult {
  r_session_metadata : session_metadata;
  r_turns : list turn;
  r_tool_results : list (json * json);
  r_totals : totals }.

Definition initial_activity_counts : list (kind * Z) :=
  map (fun k => (k, 0%Z)) all_kinds.

Definition initial_result : result :=
  mkResult (mkMeta JNull JNull JNull) [] []
           (mkTotals 0 0 0 0 initial_activity_counts).

(** [counts[k] += 1] *)
Definition incr_count (counts : list (kind * Z)) (k : kind) : res (list (kind * Z)) :=
  if existsb (fun '(k', _) => kind_eqb k k') counts then
    Ok (map (fun '(k', v) => if kind_eqb k k' then (k', (v + 1)%Z) else (k', v)) counts)
  else Raise KeyError.

(** Dict-key equality between hashable values ([1 == True] in Python). *)
Definition key_eqb (x y : json) : bool :=
  match x, y with
  | JNull, JNull => true
  | JStr a, JStr b => String.eqb a b
  | JNum a, JNum b => Z.eqb a b
  | JBool a, JBool b => Bool.eqb a b
  | JNum a, JBool b | JBool b, JNum a => Z.eqb a (if b then 1 else 0)
  | _, _ => false
  end.

(** [d[k] = v] for a dict with hashable keys: an existing key keeps its place. *)
Definition dict_set (d : list (json * json)) (k v : json) : res (list (json * json)) :=
  if hashable k then
    if existsb (fun '(k', _) => key_eqb k k') d then
      Ok (map (fun '(k', v') => if key_eqb k k' then (k', v) else (k', v')) d)
    else Ok (d ++ [(k, v)])
  else Raise TypeError.

(** [d.get(k)] for such a dict *)
Definition dict_lookup (d : list (json * json)) (k : json) : res json :=
  if hashable k then
    Ok (match find (fun '(k', _) => key_eqb k k') d with Some (_, v) => v | None => JNull end)
  else Raise TypeError.

(** [for x in v]: lists yield their items, dicts their keys, strings their
    characters; other values are not iterable. *)
Definition py_iter (v : json) : res (list json) :=
  match v with
  | JArr l => Ok l
  | JObj o => Ok (map (fun '(k, _) => JStr k) o)
  | JStr s => Ok (map (fun c => JStr (String c EmptyString)) (list_ascii_of_string s))
  | _ => Raise TypeError
  end.

(** [total += value] for an int total *)
Definition py_add (t : Z) (v : json) : res Z :=
  match v with
  | JNum n => Ok (t + n)%Z
  | JBool b => Ok (t + if b then 1 else 0)%Z
  | _ => Raise TypeError
  end.

Fixpoint res_fold {A B} (f : A -> B -> res A) (l : list B) (a : A) : res A :=
  match l with
  | [] => Ok a
  | x :: l' => let* a' := f a x in res_fold f l' a'
  end.

(** Loop state of [parse_transcript]. *)
Record pstate := mkP {
  p_result : result;
  pending_user_message : option string;
  pending_user_timestamp : json }.

Definition set_metadata (st : pstate) (m : session_metadata) : pstate :=
  let r := p_result st in
  mkP (mkResult m (r_turns r) (r_tool_results r) (r_totals r))
      (pending_user_message st) (pending_user_timestamp st).

(** One block of a user message's content: text parts and tool results. *)
Definition user_block (acc : list json * list (json * json)) (block : json)
    : res (list json * list (json * json)) :=
  let '(text_parts, tool_results) := acc in
  match block with
  | JStr _ => Ok (text_parts ++ [block], tool_results)
  | JObj o =>
      let block_type := dict_get o "type" JNull in
      if eq_str block_type "text" then
        Ok (text_parts ++ [dict_get o "text" (JStr "")], tool_results)
      else if eq_str block_type "tool_result" then
        let tool_use_id := dict_get o "tool_use_id" JNull in
        if truthy tool_use_id then
          let* tr := dict_set tool_results tool_use_id (dict_get o "content" JNull) in
          Ok (text_parts, tr)
        else Ok (text_parts, tool_results)
      else Ok (text_parts, tool_results)
  | _ => Ok (text_parts, tool_results)
  end.

(** One block of an assistant message's content. *)
Definition assistant_block (acc : list json * list tool_call * list (kind * Z)) (block : json)
    : res (list json * list tool_call * list (kind * Z)) :=
  let '(text_parts, tool_calls, counts) := acc in
  let* block_type := py_get block "type" JNull in
  if eq_str block_type "text" then
    let* t := py_get block "text" (JStr "") in
    Ok (text_parts ++ [t], tool_calls, counts)
  else if eq_str block_type "tool_use" then
    let* name := py_get block "name" (JStr "") in
    let* input := py_get block "input" (JObj []) in
    let* k := classify_activity name input in
    let* counts' := incr_count counts k in
    let* id := py_get block "id" JNull in
    Ok (text_parts, tool_calls ++ [mkCall name input id k], counts')
  else Ok (text_parts, tool_calls, counts).

Definition opt_join (parts : list json) : res (option string) :=
  match parts with
  | [] => Ok None
  | _ => let* s := py_join (String "010"%char EmptyString) parts in Ok (Some s)
  end.

(** The body of the [for line in f] loop, after [json.loads]. *)
Definition parse_entry (st : pstate) (entry : json) : res pstate :=
  let r := p_result st in
  let m := r_session_metadata r in
  let* entry_type := py_get entry "type" JNull in
  if eq_str entry_type "summary" && is_none (cwd m) then
    let* c := py_get entry "cwd" JNull in
    let* g := py_get entry "git_branch" JNull in
    Ok (set_metadata st (mkMeta c g (model m)))
  else if eq_str entry_type "user" then
    let* message := py_get entry "message" (JObj []) in
    let* content := py_get message "content" (JArr []) in
    let* ts := py_get entry "timestamp" JNull in
    match content with
    | JStr s =>
        Ok (mkP r (if String.eqb s "" then None else Some s) ts)
    | _ =>
        let* blocks := py_iter content in
        let* acc := res_fold user_block blocks ([], r_tool_results r) in
        let '(text_parts, tool_results) := acc in
        let* msg := opt_join text_parts in
        Ok (mkP (mkResult m (r_turns r) tool_results (r_totals r)) msg ts)
    end
  else if eq_str entry_type "assistant" then
    let* message := py_get entry "message" (JObj []) in
    let* content := py_get message "content" (JArr []) in
    let* u := py_get message "usage" (JObj []) in
    let* mdl := py_get message "model" JNull in
    let m := if truthy mdl && is_none (model m) then mkMeta (cwd m) (git_branch m) mdl else m in
    let tt := r_totals r in
    let* blocks := py_iter content in
    let* acc := res_fold assistant_block blocks ([], [], activity_counts tt) in
    let '(text_parts, tool_calls, counts) := acc in
    let* i := py_get u "input_tokens" (JNum 0) in
    let* o := py_get u "output_tokens" (JNum 0) in
    let* cr := py_get u "cache_read_input_tokens" (JNum 0) in
    let* cc := py_get u "cache_creation_input_tokens" (JNum 0) in
    let* ti := py_add (input_tokens tt) i in
    let* to := py_add (output_tokens tt) o in
    let* tcr := py_add (cache_read_input_tokens tt) cr in
    let* tcc := py_add (cache_creation_input_tokens tt) cc in
    let* ats := py_get entry "timestamp" JNull in
    let* text := opt_join text_parts in
    let t := mkTurn (pending_user_message st) (pending_user_timestamp st)
                    (mkResp mdl text (mkUsage i o cr cc) tool_calls ats) in
    Ok (mkP (mkResult m (r_turns r ++ [t]) (r_tool_results r)
                      (mkTotals ti to tcr tcc counts))
            None JNull)
  else Ok st.

Inductive fsnode : Type :=
| FFile (lines : list string)
| FDir.

Section Parse.

(** [json.loads] on one stripped line; [None] is a [JSONDecodeError]. *)
Variable json_loads : string -> option json.

Definition parse_line (st : pstate) (line : string) : res pstate :=
  let line := strip line in
  if String.eqb line "" then Ok st
  else match json_loads line with
       | None => Ok st
       | Some entry => parse_entry st entry
       end.

Definition parse_lines (lines : list string) (st : pstate) : res pstate :=
  res_fold parse_line lines st.

Definition initial_pstate : pstate := mkP initial_result None JNull.

(** [parse_transcript(transcript_path)] on a file system [fs] (resolved
    path to node) with home directory [home]. *)
Definition parse_transcript (fs : string -> option fsnode) (home : string)
    (transcript_path : string) : res result :=
  let path := replace_char "~"%char home transcript_path in
  match fs path with
  | None => Ok initial_result
  | Some FDir => Raise IsADirectoryError
  | Some (FFile lines) =>
      let* st := parse_lines lines initial_pstate in
      Ok (p_result st)
  end.

End Parse.

(** ** send_to_langfuse: the batch of ingestion events

    The model starts after the import and credential checks of
    [send_to_langfuse] have passed and ends with the batch handed to
    [langfuse.api.ingestion.batch].  Datetimes are instants in seconds;
    [uuid.uuid4()] draws are numbered in the order the code makes them.
    The trace body keeps the fields the trace is identified and timed by
    (its metadata dict and tags are not modelled). *)

(** [str(v)] as used by the f-strings of the code (container reprs do not
    escape quotes inside strings). *)
Definition scalar_str (v : json) : string :=
  match v with
  | JNull => "None"
  | JBool true => "True"
  | JBool false => "False"
  | JNum n => NilEmpty.string_of_int (Z.to_int n)
  | JStr s => s
  | _ => ""
  end.

Fixpoint py_repr (v : json) : string :=
  match v with
  | JStr s => ("'" ++ s ++ "'")%string
  | JArr l => ("[" ++ join ", " (map py_repr l) ++ "]")%string
  | JObj o => ("{" ++ join ", " (map (fun '((k, x) : string * json) => "'" ++ k ++ "': " ++ py_repr x) o) ++ "}")%string
  | _ => scalar_str v
  end.

Definition py_str (v : json) : string :=
  match v with
  | JStr s => s
  | _ => py_repr v
  end.

(** [a + b] on two Python values decoded from JSON *)
Definition py_plus (a b : json) : res json :=
  let num v := match v with JNum n => Some n | JBool x => Some (if x then 1 else 0)%Z | _ => None end in
  match num a, num b, a, b with
  | Some x, Some y, _, _ => Ok (JNum (x + y))
  | _, _, JStr x, JStr y => Ok (JStr (x ++ y))
  | _, _, JArr x, JArr y => Ok (JArr (x ++ y))
  | _, _, _, _ => Raise TypeError
  end.

(** [d[k] = v] on a dict with string keys *)
Definition sdict_set {A} (d : list (string * A)) (k : string) (v : A) : list (string * A) :=
  if existsb (fun '(k', _) => String.eqb k k') d then
    map (fun '(k', v') => if String.eqb k k' then (k', v) else (k', v')) d
  else d ++ [(k, v)].

(** [del d[k]] *)
Definition sdict_del {A} (d : list (string * A)) (k : string) : list (string * A) :=
  filter (fun '(k', _) => negb (String.eqb k k')) d.

Inductive body_id : Type :=
| Det (s : string)        (* generate_deterministic_id(...) *)
| Rand (draw : nat).      (* str(uuid.uuid4()) *)

Record trace_body := mkTrace {
  tb_id : string;
  tb_name : string;
  tb_session_id : option string;
  tb_input : option string;
  tb_output : option string;
  tb_timestamp : Z }.

Record generation_body := mkGen {
  g_id : string;
  g_trace_id : string;
  g_name : string;
  g_model : json;
  g_input : option string;
  g_output : option string;
  g_start_time : Z;
  g_end_time : Z;
  g_usage_details : list (string * json);
  g_metadata : list (string * json) }.

Record span_body := mkSpan {
  s_id : body_id;
  s_trace_id : string;
  s_parent_observation_id : string;
  s_name : string;
  s_input : json;
  s_output : json;
  s_start_time : Z;
  s_end_time : Z;
  s_metadata : list (string * json) }.

(** An ingestion event: its event id (a uuid4 draw) and its body. *)
Inductive event : Type :=
| TraceCreate (eid : nat) (b : trace_body)
| GenerationCreate (eid : nat) (b : generation_body)
| SpanCreate (eid : nat) (b : span_body).

Record pending_task := mkPending {
  bash_tool_use_id : json;
  generation_id : string;
  pt_activity_kind : kind;
  pt_tool_name : json;
  start_time : Z;
  command : json }.

Definition bg_marker : list ascii :=
  list_ascii_of_string "Command running in background with ID:".

Fixpoint take_while (p : ascii -> bool) (l : list ascii) : list ascii :=
  match l with c :: l' => if p c then c :: take_while p l' else [] | [] => [] end.

Fixpoint drop_while (p : ascii -> bool) (l : list ascii) : list ascii :=
  match l with c :: l' => if p c then drop_while p l' else l | [] => [] end.

Fixpoint strip_prefix (p l : list ascii) : option (list ascii) :=
  match p, l with
  | [], _ => Some l
  | x :: p', y :: l' => if Ascii.eqb x y then strip_prefix p' l' else None
  | _ :: _, [] => None
  end.

(** [re.search(r"Command running in background with ID:\s*([a-zA-Z0-9]+)", s)]
    and its group 1: the leftmost position where the marker, blanks and at
    least one letter or digit follow; the group is the longest such run. *)
Fixpoint bg_search (l : list ascii) : option string :=
  match
    match strip_prefix bg_marker l with
    | Some rest =>
        match take_while is_alnum_ascii (drop_while is_space rest) with
        | [] => None
        | id => Some (string_of_list_ascii id)
        end
    | None => None
    end
  with
  | Some id => Some id
  | None => match l with _ :: l' => bg_search l' | [] => None end
  end.

Definition text_search (text : json) : res (option string) :=
  match text with
  | JStr s => Ok (bg_search (list_ascii_of_string s))
  | _ => Raise TypeError
  end.

Definition extract_background_task_id (tool_output : json) : res (option string) :=
  match tool_output with
  | JNull => Ok None
  | JStr s => text_search (JStr s)
  | JArr blocks =>
      let parts := flat_map (fun block =>
        match block with
        | JStr _ => [block]
        | JObj o => if eq_str (dict_get o "type" JNull) "text" then [dict_get o "text" (JStr "")] else []
        | _ => []
        end) blocks in
      let* t := py_join (String "010"%char EmptyString) parts in
      text_search (JStr t)
  | JObj o =>
      if eq_str (dict_get o "type" JNull) "text" then text_search (dict_get o "text" (JStr ""))
      else text_search (JStr "")
  | _ => text_search (JStr "")
  end.

Definition extract_task_output_info (name input : json) : res (json * json) :=
  if negb (eq_str name "TaskOutput") then Ok (JNull, JBool false) else
  let input := py_or input (JObj []) in
  let* task_id := py_get input "task_id" JNull in
  let* is_blocking := py_get input "block" (JBool true) in
  Ok (task_id, is_blocking).

Section Assemble.

(** [datetime.fromisoformat] (after the "Z" rewrite), as an instant in
    seconds; [None] is the [ValueError] that [parse_iso_timestamp] catches.
    A naive result is read as UTC, as the code does. *)
Variable fromisoformat : string -> option Z.

Definition parse_iso_timestamp (ts : json) : res (option Z) :=
  if negb (truthy ts) then Ok None
  else match ts with
       | JStr s => Ok (fromisoformat (replace_char "Z"%char "+00:00" s))
       | _ => Raise AttributeError
       end.

(** [generate_deterministic_id(v)] on a value that must be a [str] *)
Definition py_gdi (v : json) : res string :=
  match v with
  | JStr s => Ok (generate_deterministic_id s "")
  | _ => Raise AttributeError
  end.

(** State of the per-turn loop of [send_to_langfuse]. *)
Record astate := mkA {
  prev_end_time : option Z;
  pending_background_tasks : list (string * pending_task);
  events : list event;
  uuids : nat }.

(** What a tool call of a turn sees of its turn. *)
Record tctx := mkCtx {
  c_trace_id : string;
  c_generation_id : string;
  c_start_time : Z;
  c_end_time : Z;
  c_tool_results : list (json * json) }.

Definition create_background_umbrella_span (background_task_id : json)
    (pt : pending_task) (completion_time : Z) (trace_id : string)
    (gen_id : string) (eid : nat) : res event :=
  let bash_id := bash_tool_use_id pt in
  let kd := JStr (kind_name (pt_activity_kind pt)) in
  let span_id := generate_deterministic_id
      ("umbrella_" ++ py_str bash_id ++ "_" ++ py_str background_task_id)%string "" in
  Ok (SpanCreate eid
        (mkSpan (Det span_id) trace_id gen_id
           ("BACKGROUND/" ++ kind_name (pt_activity_kind pt) ++ "/" ++ py_str (pt_tool_name pt))%string
           (JObj [("background_task_id", background_task_id)])
           JNull (start_time pt) completion_time
           [("activity_kind", kd); ("background_task_id", background_task_id);
            ("bash_tool_use_id", bash_id); ("is_background", JBool true)])).

(** [task_id in pending_background_tasks] *)
Definition pending_find (pending : list (string * pending_task)) (task_id : json)
    : res (option (string * pending_task)) :=
  if hashable task_id then
    Ok (find (fun '(k, _) => key_eqb (JStr k) task_id) pending)
  else Raise TypeError.

(** The body of [for tool_call in tool_calls]. *)
Definition tool_call_step (ctx : tctx) (st : astate) (tc : tool_call) : res astate :=
  let name := tool_name tc in
  let id := tool_use_id tc in
  let input := tool_input tc in
  let kd := activity_kind tc in
  let* tool_output := if truthy id then dict_lookup (c_tool_results ctx) id else Ok JNull in
  let meta := [("activity_kind", JStr (kind_name kd)); ("tool_use_id", id)] in
  let* started :=
    if eq_str name "Bash" && truthy tool_output then
      let* bg := extract_background_task_id tool_output in
      match bg with
      | Some b =>
          if String.eqb b "" then Ok (pending_background_tasks st, meta) else
          let* cmd := if truthy input then py_get input "command" JNull else Ok JNull in
          Ok (sdict_set (pending_background_tasks st) b
                (mkPending id (c_generation_id ctx) kd name (c_start_time ctx) cmd),
              sdict_set (sdict_set meta "is_background_start" (JBool true))
                "background_task_id" (JStr b))
      | None => Ok (pending_background_tasks st, meta)
      end
    else Ok (pending_background_tasks st, meta) in
  let '(pending, meta) := started in
  let* info := extract_task_output_info name input in
  let '(task_id, is_blocking) := info in
  let* found :=
    if truthy task_id && truthy is_blocking then pending_find pending task_id
    else Ok None in
  let* completed :=
    match found with
    | Some (key, pt) =>
        let wall_time := (c_end_time ctx - start_time pt)%Z in
        let* umbrella := create_background_umbrella_span task_id pt (c_end_time ctx)
                           (c_trace_id ctx) (generation_id pt) (uuids st) in
        Ok (events st ++ [umbrella], S (uuids st),
            sdict_set (sdict_set (sdict_set meta "is_background_completion" (JBool true))
                "background_task_id" task_id)
              "background_wall_time_seconds" (JNum wall_time),
            sdict_del pending key)
    | None => Ok (events st, uuids st, meta, pending)
    end in
  let '(evs, n, meta, pending) := completed in
  let* sid :=
    if truthy id then let* s := py_gdi id in Ok (Det s, n)
    else Ok (Rand n, S n) in
  let '(span_id, n) := sid in
  Ok (mkA (prev_end_time st) pending
          (evs ++ [SpanCreate n (mkSpan span_id (c_trace_id ctx) (c_generation_id ctx)
                    (kind_name kd ++ "/" ++ py_str name)%string input tool_output
                    (c_start_time ctx) (c_end_time ctx) meta)])
          (S n)).

Definition nat_str (n : nat) : string := NilEmpty.string_of_uint (Nat.to_uint n).

(** The body of [for i, turn in enumerate(turns)]. *)
Definition turn_step (trace_id : string) (first_timestamp : Z)
    (tool_results : list (json * json)) (i : nat) (st : astate) (t : turn)
    : res astate :=
  let* user_ts := parse_iso_timestamp (user_timestamp t) in
  let ar := assistant t in
  let* assistant_ts := parse_iso_timestamp (ar_timestamp ar) in
  let start := match user_ts with
               | Some u => u
               | None => match prev_end_time st with Some p => p | None => first_timestamp end
               end in
  let end_ := match assistant_ts with Some a => a | None => start end in
  let* seed := py_join "|" [py_or (user_timestamp t) (JStr "");
                            py_or (ar_timestamp ar) (JStr "");
                            JStr (match user_message t with Some m => m | None => "" end)] in
  let gen_id := generate_deterministic_id seed "" in
  let u := ar_usage ar in
  let* total := py_plus (u_input_tokens u) (u_output_tokens u) in
  let gen := mkGen gen_id trace_id ("llm-response-" ++ nat_str i)%string (ar_model ar)
               (user_message t) (ar_text_content ar) start end_
               [("input", u_input_tokens u); ("output", u_output_tokens u); ("total", total);
                ("input_cache_read", u_cache_read_input_tokens u);
                ("input_cache_creation", u_cache_creation_input_tokens u)]
               [("tool_call_count", JNum (Z.of_nat (List.length (ar_tool_calls ar))))] in
  let st1 := mkA (prev_end_time st) (pending_background_tasks st)
                 (events st ++ [GenerationCreate (uuids st) gen]) (S (uuids st)) in
  let ctx := mkCtx trace_id gen_id start end_ tool_results in
  let* st2 := res_fold (tool_call_step ctx) (ar_tool_calls ar) st1 in
  Ok (mkA (Some end_) (pending_background_tasks st2) (events st2) (uuids st2)).

Fixpoint turn_loop (trace_id : string) (first_timestamp : Z)
    (tool_results : list (json * json)) (i : nat) (turns : list turn) (st : astate)
    : res astate :=
  match turns with
  | [] => Ok st
  | t :: rest =>
      let* st' := turn_step trace_id first_timestamp tool_results i st t in
      turn_loop trace_id first_timestamp tool_results (S i) rest st'
  end.

(** The first pass over the turns: first user timestamp, last assistant
    timestamp, first user message and last assistant text. *)
Definition scan_step (acc : option Z * option Z * option string * option string) (t : turn)
    : res (option Z * option Z * option string * option string) :=
  let '(first_ts, last_ts, first_msg, last_text) := acc in
  let* user_ts := parse_iso_timestamp (user_timestamp t) in
  let* assistant_ts := parse_iso_timestamp (ar_timestamp (assistant t)) in
  let first_ts := match first_ts, user_ts with None, Some u => Some u | _, _ => first_ts end in
  let last_ts := match assistant_ts with Some a => Some a | None => last_ts end in
  let first_msg := match first_msg, user_message t with
                   | None, Some m => if String.eqb m "" then None else Some m
                   | _, _ => first_msg end in
  let last_text := match ar_text_content (assistant t) with
                   | Some x => if String.eqb x "" then last_text else Some x
                   | None => last_text end in
  Ok (first_ts, last_ts, first_msg, last_text).

(** [send_to_langfuse(session_id, parsed, vk_context)] up to the batch:
    [now] is [datetime.now(timezone.utc)], [vk_task_id] the context's
    [vk_task_id].  Result: the pending background tasks left at the end
    and the batch of events. *)
Definition send_to_langfuse (session_id : string) (vk_task_id : option string)
    (parsed : result) (now : Z) : res (list (string * pending_task) * list event) :=
  let turns := r_turns parsed in
  let* scan := res_fold scan_step turns (None, None, None, None) in
  let '(first_ts, last_ts, first_user_message, last_assistant_text) := scan in
  let first_timestamp := match first_ts with Some f => f | None => now end in
  let trace_id := session_id in
  let trace := TraceCreate 0 (mkTrace trace_id "claude-code-session" vk_task_id
                                first_user_message last_assistant_text first_timestamp) in
  let* st := turn_loop trace_id first_timestamp (r_tool_results parsed) 0 turns
               (mkA None [] [trace] 1) in
  Ok (pending_background_tasks st, events st).

End Assemble.

(** ** Concrete instances for runs on explicit inputs *)

(** [datetime.fromisoformat] on the form [YYYY-MM-DDTHH:MM:SS+00:00]
    (or without offset), as seconds since the epoch; every other text is
    a [ValueError]. *)
Definition digit_val (c : ascii) : option Z :=
  let n := nat_of_ascii c in
  if ((48 <=? n) && (n <=? 57))%nat then Some (Z.of_nat n - 48)%Z else None.

Fixpoint digits_val (l : list ascii) : option Z :=
  match l with
  | [] => Some 0%Z
  | c :: l' =>
      match digit_val c, digits_val l' with
      | Some d, Some r => Some (d * 10 ^ Z.of_nat (List.length l') + r)%Z
      | _, _ => None
      end
  end.

Definition days_from_civil (y m d : Z) : Z :=
  let y' := if (m <=? 2)%Z then (y - 1)%Z else y in
  let era := (y' / 400)%Z in
  let yoe := (y' - era * 400)%Z in
  let doy := ((153 * (if (2 <? m)%Z then m - 3 else m + 9) + 2) / 5 + d - 1)%Z in
  let doe := (yoe * 365 + yoe / 4 - yoe / 100 + doy)%Z in
  (era * 146097 + doe - 719468)%Z.

Definition iso_model (s : string) : option Z :=
  match list_ascii_of_string s with
  | y1 :: y2 :: y3 :: y4 :: "-"%char :: mo1 :: mo2 :: "-"%char :: d1 :: d2 :: "T"%char
      :: h1 :: h2 :: ":"%char :: mi1 :: mi2 :: ":"%char :: s1 :: s2 :: rest =>
      match rest with
      | [] | ["+"%char; "0"%char; "0"%char; ":"%char; "0"%char; "0"%char] =>
          match digits_val [y1; y2; y3; y4], digits_val [mo1; mo2], digits_val [d1; d2],
                digits_val [h1; h2], digits_val [mi1; mi2], digits_val [s1; s2] with
          | Some y, Some mo, Some d, Some h, Some mi, Some se =>
              if ((1 <=? mo) && (mo <=? 12) && (1 <=? d) && (d <=? 31)
                  && (h <=? 23) && (mi <=? 59) && (se <=? 59))%Z
              then Some (days_from_civil y mo d * 86400 + h * 3600 + mi * 60 + se)%Z
              else None
          | _, _, _, _, _, _ => None
          end
      | _ => None
      end
  | _ => None
  end.

Example iso_model_epoch :
  map iso_model ["1970-01-01T00:00:00+00:00"; "2024-01-01T00:00:00+00:00"; "2024-03-01T12:30:05"; "x"]
  = [Some 0%Z; Some 1704067200%Z; Some 1709296205%Z; None].
Proof. vm_compute. reflexivity. Qed.

(** [json.loads] restricted to a table of known lines. *)
Definition table_loads (table : list (string * json)) (line : string) : option json :=
  assoc_get line table.

(** The scenario of the spec: user "fix bug" at T0, assistant "done" at T1
    with one [Edit] call. *)
Definition sc_user : json :=
  JObj [("type", JStr "user"); ("timestamp", JStr "2024-01-01T00:00:00Z");
        ("message", JObj [("content", JStr "fix bug")])].
Definition sc_assistant : json :=
  JObj [("type", JStr "assistant"); ("timestamp", JStr "2024-01-01T00:00:07Z");
        ("message", JObj [("model", JStr "m1");
           ("content", JArr [JObj [("type", JStr "text"); ("text", JStr "done")];
                             JObj [("type", JStr "tool_use"); ("name", JStr "Edit");
                                   ("id", JStr "tu1"); ("input", JObj [])]]);
           ("usage", JObj [("input_tokens", JNum 5); ("output_tokens", JNum 3)])])].
Definition sc_table : list (string * json) := [("U", sc_user); ("A", sc_assistant)].
Definition sc_fs (p : string) : option fsnode :=
  if String.eqb p "/home/u/log.jsonl" then Some (FFile ["U"; "  A  "; "{bad"; ""]) else None.

Example scenario_parse :
  match parse_transcript (table_loads sc_table) sc_fs "/home/u" "~/log.jsonl" with
  | Ok r => (List.length (r_turns r), activity_counts (r_totals r), input_tokens (r_totals r),
             model (r_session_metadata r))
  | Raise _ => (0%nat, [], 0%Z, JNull)
  end
  = (1%nat, [(CODE, 1%Z); (BUILD, 0%Z); (TEST, 0%Z); (GIT, 0%Z); (EXPLORE, 0%Z);
             (RESEARCH, 0%Z); (SETUP, 0%Z); (PLAN, 0%Z); (COMMUNICATE, 0%Z); (OTHER, 0%Z)],
     5%Z, JStr "m1").
Proof. vm_compute. reflexivity. Qed.

Definition gen_times (evs : list event) : list (Z * Z) :=
  flat_map (fun ev => match ev with
                      | GenerationCreate _ g => [(g_start_time g, g_end_time g)]
                      | _ => []
                      end) evs.

Example scenario_times :
  match parse_transcript (table_loads sc_table) sc_fs "/home/u" "~/log.jsonl" with
  | Ok r => match send_to_langfuse iso_model "sess" None r 42 with
            | Ok (_, evs) => gen_times evs
            | Raise _ => []
            end
  | Raise _ => []
  end = [(1704067200%Z, 1704067207%Z)].
Proof. vm_compute. reflexivity. Qed.

(** * Properties *)

(** ** Deterministic identifiers *)

Definition is_hex_char (c : ascii) : bool :=
  existsb (Ascii.eqb c) (list_ascii_of_string "0123456789abcdef").

Lemma length_string_of_list_ascii (l : list ascii) :
  String.length (string_of_list_ascii l) = List.length l.
Proof. induction l as [|c l IH]; simpl; [reflexivity | now rewrite IH]. Qed.

Lemma substring_prefix_length (m : nat) (s : string) :
  (m <= String.length s)%nat -> String.length (substring 0 m s) = m.
Proof.
  revert s; induction m as [|m IH]; intros s Hm; destruct s as [|c s]; simpl in *;
    try reflexivity; try lia.
  rewrite IH; [reflexivity | lia].
Qed.

Lemma substring_prefix_in (m : nat) (s : string) (c : ascii) :
  In c (list_ascii_of_string (substring 0 m s)) -> In c (list_ascii_of_string s).
Proof.
  revert s; induction m as [|m IH]; intros s H; destruct s as [|x s]; simpl in *;
    try contradiction; auto.
  destruct H as [H | H]; [left; exact H | right; apply IH; exact H].
Qed.

Lemma hex_digit_ok (x : Z) : is_hex_char (SHA256.hex_digit (Z.land x 15)) = true.
Proof.
  change 15%Z with (Z.ones 4). rewrite Z.land_ones by lia.
  assert (Hb : (0 <= x mod 2 ^ 4 < 16)%Z) by (apply Z.mod_pos_bound; lia).
  remember (x mod 2 ^ 4)%Z as d eqn:Hd; clear Hd.
  assert (d = 0 \/ d = 1 \/ d = 2 \/ d = 3 \/ d = 4 \/ d = 5 \/ d = 6 \/ d = 7 \/ d = 8
          \/ d = 9 \/ d = 10 \/ d = 11 \/ d = 12 \/ d = 13 \/ d = 14 \/ d = 15)%Z
    as Hcases by lia.
  repeat (destruct Hcases as [-> | Hcases]; [vm_compute; reflexivity |]).
  subst; vm_compute; reflexivity.
Qed.

Lemma hexdigest_length (msg : list Z) : String.length (SHA256.hexdigest msg) = 64%nat.
Proof.
  unfold SHA256.hexdigest. rewrite length_string_of_list_ascii.
  generalize (SHA256.digest_state msg) as h; intros [a b c d e f g k].
  unfold SHA256.words. cbn [flat_map]. rewrite !length_app.
  unfold SHA256.word_hex. rewrite !length_map. reflexivity.
Qed.

Lemma hexdigest_hex (msg : list Z) (c : ascii) :
  In c (list_ascii_of_string (SHA256.hexdigest msg)) -> is_hex_char c = true.
Proof.
  unfold SHA256.hexdigest. rewrite list_ascii_of_string_of_list_ascii.
  intros H. apply in_flat_map in H as [w [_ Hw]].
  unfold SHA256.word_hex in Hw. apply in_map_iff in Hw as [i [<- _]].
  apply hex_digit_ok.
Qed.


(** C10: the [prefix] argument of [generate_deterministic_id] has no
    influence on the identifier. *)
Theorem generate_deterministic_id_prefix_irrelevant (seed prefix1 prefix2 : string) :
  generate_deterministic_id seed prefix1 = generate_deterministic_id seed prefix2.
Proof. reflexivity. Qed.

(** ** Activity classification *)

Definition matches_any (patterns : list string) (s : string) : bool :=
  existsb (fun p => re_search p s) patterns.

Lemma classify_bash_command (o : list (string * json)) (s : string) :
  dict_get o "command" (JStr "") = JStr s ->
  classify_activity (JStr "Bash") (JObj o)
  = Ok (if matches_any git_patterns s then GIT
        else if matches_any test_patterns s then TEST
        else if matches_any build_patterns s then BUILD
        else if matches_any setup_patterns s then SETUP
        else OTHER).
Proof.
  intros H. unfold classify_activity.
  assert (Hor : py_or (JObj o) (JObj []) = JObj o) by (destruct o; reflexivity).
  rewrite Hor. cbn [in_str_set hashable existsb String.eqb bind eq_str py_get].
  rewrite H. cbn [any_match bind]. unfold matches_any.
  destruct (existsb _ git_patterns); [reflexivity|].
  destruct (existsb _ test_patterns); [reflexivity|].
  destruct (existsb _ build_patterns); [reflexivity|].
  destruct (existsb _ setup_patterns); reflexivity.
Qed.

(** C3: for a Bash call whose input carries the command string [s], the
    pattern groups are tried in the order GIT, TEST, BUILD, SETUP and the
    first group with a matching pattern decides; "pnpm test" is TEST and
    "npm install" is SETUP. *)
Theorem classify_bash_group_order (o : list (string * json)) (s : string) :
  dict_get o "command" (JStr "") = JStr s ->
  classify_activity (JStr "Bash") (JObj o)
  = Ok (if matches_any git_patterns s then GIT
        else if matches_any test_patterns s then TEST
        else if matches_any build_patterns s then BUILD
        else if matches_any setup_patterns s then SETUP
        else OTHER)
  /\ classify_activity (JStr "Bash") (bash_input "pnpm test") = Ok TEST
  /\ classify_activity (JStr "Bash") (bash_input "npm install") = Ok SETUP.
Proof.
  intros H. split; [apply classify_bash_command; exact H |].
  split; vm_compute; reflexivity.
Qed.

Lemma classify_bash_group_order_witness :
  dict_get [("command", JStr "pnpm test")] "command" (JStr "") = JStr "pnpm test"
  /\ classify_activity (JStr "Bash") (JObj [("command", JStr "pnpm test")]) = Ok TEST.
Proof.
  split; [reflexivity |].
  destruct (classify_bash_group_order [("command", JStr "pnpm test")] "pnpm test"
              eq_refl) as [H _].
  rewrite H. vm_compute. reflexivity.
Defined.

(** C2 (code_bug): the failing input.  A Bash call whose input mapping has
    ["command": None] (a JSON [null]) makes [classify_activity] raise: the
    default of [tool_input.get("command", "")] only covers a missing key,
    and [re.search] refuses a non-string subject. *)
Theorem classify_activity_null_command_raises :
  classify_activity (JStr "Bash") (JObj [("command", JNull)]) = Raise TypeError.
Proof. vm_compute. reflexivity. Qed.

(** With a string command or a tool other than Bash the classifier is
    total: every call with a string tool name returns one of the ten kinds. *)
Lemma classify_activity_total (name : string) (input : json) :
  (name <> "Bash" \/ exists s, py_get (py_or input (JObj [])) "command" (JStr "") = Ok (JStr s)) ->
  exists k, classify_activity (JStr name) input = Ok k /\ In k all_kinds.
Proof.
  intros Hpre. unfold classify_activity. cbn [in_str_set hashable bind].
  destruct (existsb _ ["Edit"; "Write"; "NotebookEdit"]); [exists CODE; simpl; tauto|].
  destruct (existsb _ ["TodoWrite"; "EnterPlanMode"; "ExitPlanMode"]); [exists PLAN; simpl; tauto|].
  destruct (existsb _ ["AskUserQuestion"]); [exists COMMUNICATE; simpl; tauto|].
  destruct (existsb _ ["WebSearch"; "WebFetch"]); [exists RESEARCH; simpl; tauto|].
  destruct (existsb _ ["Read"; "Glob"; "Grep"; "LSP"; "LS"; "Task";
                       "ListMcpResourcesTool"; "ReadMcpResourceTool"]);
    [exists EXPLORE; simpl; tauto|].
  cbn [eq_str]. destruct (String.eqb name "Bash") eqn:Hb; [| exists OTHER; simpl; tauto].
  apply String.eqb_eq in Hb. destruct Hpre as [Hn | [s Hs]]; [contradiction|].
  rewrite Hs. cbn [bind any_match].
  destruct (existsb _ git_patterns); [exists GIT; simpl; tauto|].
  destruct (existsb _ test_patterns); [exists TEST; simpl; tauto|].
  destruct (existsb _ build_patterns); [exists BUILD; simpl; tauto|].
  destruct (existsb _ setup_patterns); [exists SETUP; simpl; tauto|].
  exists OTHER; simpl; tauto.
Qed.

(** ** The transcript parser *)

Ltac step H :=
  match type of H with
  | bind ?m _ = _ =>
      let E := fresh "E" in destruct m eqn:E; cbn [bind] in H; [| discriminate H]
  | (if ?b then _ else _) = _ => let E := fresh "E" in destruct b eqn:E
  | (let '(_, _) := ?x in _) = _ => destruct x
  | (match ?x with _ => _ end) = _ => let E := fresh "E" in destruct x eqn:E
  | Ok _ = Ok _ => injection H as H; subst
  | Raise _ = Ok _ => discriminate H
  end.

Lemma parse_lines_app (json_loads : string -> option json) (l1 l2 : list string) (st : pstate) :
  parse_lines json_loads (l1 ++ l2) st
  = bind (parse_lines json_loads l1 st) (parse_lines json_loads l2).
Proof.
  revert st; induction l1 as [|x l1 IH]; intros st; simpl; [reflexivity|].
  unfold parse_lines in *. simpl.
  destruct (parse_line json_loads st x); simpl; [apply IH | reflexivity].
Qed.








(** *** Turns and activity counts *)

Definition is_assistant_entry (e : json) : bool :=
  match e with JObj o => eq_str (dict_get o "type" JNull) "assistant" | _ => false end.

(** The entry a line of the file decodes to, if any. *)
Definition line_entry (json_loads : string -> option json) (line : string) : option json :=
  let l := strip line in if String.eqb l "" then None else json_loads l.













(** *** Session metadata *)

Definition entry_field (e : json) (k : string) : json :=
  match e with JObj o => dict_get o k JNull | _ => JNull end.

Definition is_summary_entry (e : json) : bool := eq_str (entry_field e "type") "summary".

(** [message.model] of an assistant entry *)
Definition entry_model (e : json) : json :=
  if is_assistant_entry e then
    match e with
    | JObj o => match dict_get o "message" (JObj []) with
                | JObj mm => dict_get mm "model" JNull
                | _ => JNull
                end
    | _ => JNull
    end
  else JNull.

(** The entries of a file, in order: the lines [json.loads] accepts. *)
Definition decoded_entries (json_loads : string -> option json) (lines : list string) : list json :=
  flat_map (fun l => match line_entry json_loads l with Some e => [e] | None => [] end) lines.

(** What [parse_entry] does to the session metadata. *)
Definition meta_step (m : session_metadata) (e : json) : session_metadata :=
  if is_summary_entry e && is_none (cwd m) then
    mkMeta (entry_field e "cwd") (entry_field e "git_branch") (model m)
  else if is_assistant_entry e then
    if truthy (entry_model e) && is_none (model m) then mkMeta (cwd m) (git_branch m) (entry_model e)
    else m
  else m.

Lemma res_fold_app {A B} (f : A -> B -> res A) (l1 l2 : list B) (a : A) :
  res_fold f (l1 ++ l2) a = bind (res_fold f l1 a) (res_fold f l2).
Proof.
  revert a; induction l1 as [|x l1 IH]; intros a; simpl; [reflexivity|].
  destruct (f a x); simpl; [apply IH | reflexivity].
Qed.

Lemma parse_lines_entries (json_loads : string -> option json) (lines : list string) (st : pstate) :
  parse_lines json_loads lines st = res_fold parse_entry (decoded_entries json_loads lines) st.
Proof.
  revert st; induction lines as [|l lines IH]; intros st; [reflexivity|].
  unfold parse_lines in *. simpl. unfold decoded_entries in *. simpl.
  unfold parse_line, line_entry.
  destruct (String.eqb (strip l) ""); simpl; [apply IH|].
  destruct (json_loads (strip l)) as [e|]; simpl; [|apply IH].
  destruct (parse_entry st e); simpl; [apply IH | reflexivity].
Qed.

Lemma eq_str_distinct (v : json) (a b : string) :
  eq_str v a = true -> a <> b -> eq_str v b = false.
Proof.
  destruct v; simpl; try discriminate. intros Ha Hab.
  apply String.eqb_eq in Ha; subst. apply String.eqb_neq. exact Hab.
Qed.

Lemma parse_entry_meta (st st' : pstate) (e : json) :
  parse_entry st e = Ok st' ->
  r_session_metadata (p_result st') = meta_step (r_session_metadata (p_result st)) e.
Proof.
  intros H. unfold parse_entry in H.
  destruct e as [| | | | |o]; cbn [py_get bind] in H; try discriminate H.
  unfold meta_step, is_summary_entry, is_assistant_entry, entry_model, entry_field.
  destruct (eq_str (dict_get o "type" JNull) "summary" && is_none (cwd (r_session_metadata (p_result st))))
    eqn:Es.
  - injection H as <-. reflexivity.
  - destruct (eq_str (dict_get o "type" JNull) "user") eqn:Eu.
    + assert (Ha : eq_str (dict_get o "type" JNull) "assistant" = false)
        by (apply (eq_str_distinct _ "user"); [exact Eu | discriminate]).
      rewrite Ha. repeat step H; reflexivity.
    + destruct (eq_str (dict_get o "type" JNull) "assistant") eqn:Ea; [|injection H as <-; reflexivity].
      repeat step H; simpl; cbn [py_get] in *;
        match goal with
        | M : py_get (dict_get o "message" (JObj [])) "model" JNull = Ok _ |- _ =>
            destruct (dict_get o "message" (JObj [])); try discriminate M;
            cbn [py_get] in M; injection M as <-
        end; rewrite Ea; reflexivity.
Qed.

Lemma res_fold_parse_entry_meta (es : list json) :
  forall st st', res_fold parse_entry es st = Ok st' ->
  r_session_metadata (p_result st') = fold_left meta_step es (r_session_metadata (p_result st)).
Proof.
  induction es as [|e es IH]; intros st st' H; simpl in H.
  - injection H as <-. reflexivity.
  - destruct (parse_entry st e) as [st1|] eqn:E; cbn [bind] in H; [|discriminate H].
    simpl. rewrite <- (parse_entry_meta _ _ _ E). exact (IH _ _ H).
Qed.

Lemma summary_not_assistant (e : json) :
  is_summary_entry e = true -> is_assistant_entry e = false.
Proof.
  unfold is_summary_entry, is_assistant_entry, entry_field. destruct e; try reflexivity.
  intros H. apply (eq_str_distinct _ "summary"); [exact H | discriminate].
Qed.

Lemma entry_model_assistant (e : json) :
  truthy (entry_model e) = true -> is_assistant_entry e = true.
Proof. unfold entry_model. destruct (is_assistant_entry e); [reflexivity | discriminate]. Qed.

Lemma meta_step_model_kept (m : session_metadata) (e : json) :
  model m <> JNull -> model (meta_step m e) = model m.
Proof.
  intros Hm. unfold meta_step.
  destruct (is_summary_entry e && is_none (cwd m)); [reflexivity|].
  destruct (is_assistant_entry e); [|reflexivity].
  assert (Hn : is_none (model m) = false) by (destruct (model m); try reflexivity; contradiction).
  rewrite Hn, andb_false_r. reflexivity.
Qed.

Lemma meta_step_cwd_kept (m : session_metadata) (e : json) :
  cwd m <> JNull -> cwd (meta_step m e) = cwd m /\ git_branch (meta_step m e) = git_branch m.
Proof.
  intros Hm. unfold meta_step.
  assert (Hn : is_none (cwd m) = false) by (destruct (cwd m); try reflexivity; contradiction).
  rewrite Hn, andb_false_r.
  destruct (is_assistant_entry e); [|split; reflexivity].
  destruct (truthy (entry_model e) && is_none (model m)); split; reflexivity.
Qed.

Lemma fold_model_kept (es : list json) (m : session_metadata) :
  model m <> JNull -> model (fold_left meta_step es m) = model m.
Proof.
  revert m; induction es as [|e es IH]; intros m Hm; [reflexivity|].
  simpl. rewrite IH; [apply meta_step_model_kept; exact Hm|].
  rewrite meta_step_model_kept; exact Hm.
Qed.

Lemma fold_cwd_kept (es : list json) (m : session_metadata) :
  cwd m <> JNull ->
  cwd (fold_left meta_step es m) = cwd m /\ git_branch (fold_left meta_step es m) = git_branch m.
Proof.
  revert m; induction es as [|e es IH]; intros m Hm; [split; reflexivity|].
  simpl. destruct (meta_step_cwd_kept m e Hm) as [Hc Hg].
  rewrite <- Hc in Hm. destruct (IH _ Hm) as [Hc' Hg']. rewrite Hc', Hg', Hc, Hg. split; reflexivity.
Qed.

Lemma fold_model_null (es : list json) (m : session_metadata) :
  Forall (fun x => truthy (entry_model x) = false) es -> model m = JNull ->
  model (fold_left meta_step es m) = JNull.
Proof.
  intros Hf; revert m; induction Hf as [|e es He Hf IH]; intros m Hm; [exact Hm|].
  simpl. apply IH. unfold meta_step.
  destruct (is_summary_entry e && is_none (cwd m)); [exact Hm|].
  rewrite He. destruct (is_assistant_entry e); exact Hm.
Qed.

Lemma fold_cwd_null (es : list json) (m : session_metadata) :
  Forall (fun x => is_summary_entry x = false \/ entry_field x "cwd" = JNull) es ->
  cwd m = JNull -> cwd (fold_left meta_step es m) = JNull.
Proof.
  intros Hf; revert m; induction Hf as [|e es He Hf IH]; intros m Hm; [exact Hm|].
  simpl. apply IH. unfold meta_step.
  destruct (is_summary_entry e && is_none (cwd m)) eqn:Es.
  - simpl. destruct He as [He | He]; [|exact He].
    rewrite He in Es. discriminate Es.
  - destruct (is_assistant_entry e);
      [destruct (truthy (entry_model e) && is_none (model m)); simpl; exact Hm | exact Hm].
Qed.

Definition no_model (x : json) : Prop := truthy (entry_model x) = false.
Definition no_summary_cwd (x : json) : Prop :=
  is_summary_entry x = false \/ entry_field x "cwd" = JNull.

Definition c6_s1 : json := JObj [("type", JStr "summary"); ("git_branch", JStr "a")].
Definition c6_s2 : json :=
  JObj [("type", JStr "summary"); ("cwd", JStr "/r"); ("git_branch", JStr "b")].
Definition c6_s3 : json :=
  JObj [("type", JStr "summary"); ("cwd", JStr "/x"); ("git_branch", JStr "c")].
Definition c6_table : list (string * json) :=
  [("S1", c6_s1); ("S2", c6_s2); ("S3", c6_s3); ("A", sc_assistant)].
Definition c6_fs (lines : list string) (p : string) : option fsnode :=
  if String.eqb p "s.jsonl" then Some (FFile lines) else None.
Definition c6_meta (lines : list string) : option session_metadata :=
  match parse_transcript (table_loads c6_table) (c6_fs lines) "/h" "s.jsonl" with
  | Ok r => Some (r_session_metadata r)
  | Raise _ => None
  end.

(** C6 (amended): over a log the parser accepts, [model] is the first
    truthy model of an assistant entry (null if there is none) and is
    never changed once set; [cwd] is the first non-null cwd of a summary
    entry (null if there is none) and is never changed once non-null;
    [git_branch] is written together with [cwd] by every summary entry
    met while [cwd] is still null, so it ends as the git_branch of the
    first summary entry with a non-null cwd and is frozen only from then on. *)
Theorem session_metadata_first_wins
    (json_loads : string -> option json) (fs : string -> option fsnode)
    (home path : string) (lines : list string) (r : result) :
  fs (replace_char "~"%char home path) = Some (FFile lines) ->
  parse_transcript json_loads fs home path = Ok r ->
  let es := decoded_entries json_loads lines in
  let m := r_session_metadata r in
  (forall pre e suf, es = pre ++ e :: suf -> Forall no_model pre ->
     truthy (entry_model e) = true -> model m = entry_model e)
  /\ (Forall no_model es -> model m = JNull)
  /\ (forall pre e suf, es = pre ++ e :: suf -> Forall no_summary_cwd pre ->
        is_summary_entry e = true -> entry_field e "cwd" <> JNull ->
        cwd m = entry_field e "cwd" /\ git_branch m = entry_field e "git_branch")
  /\ (Forall no_summary_cwd es -> cwd m = JNull)
  /\ (forall st e st', parse_entry st e = Ok st' ->
        let m0 := r_session_metadata (p_result st) in
        let m1 := r_session_metadata (p_result st') in
        (model m0 <> JNull -> model m1 = model m0)
        /\ (cwd m0 <> JNull -> cwd m1 = cwd m0 /\ git_branch m1 = git_branch m0)
        /\ (cwd m0 = JNull -> is_summary_entry e = true ->
            git_branch m1 = entry_field e "git_branch")).
Proof.
  intros Hfs H. unfold parse_transcript in H. rewrite Hfs in H.
  destruct (parse_lines json_loads lines initial_pstate) as [st|] eqn:E;
    cbn [bind] in H; [|discriminate H].
  injection H as <-. rewrite parse_lines_entries in E.
  apply res_fold_parse_entry_meta in E. cbv zeta. rewrite E.
  cbn [initial_pstate p_result initial_result r_session_metadata].
  split; [|split; [|split; [|split]]].
  - intros pre e suf Hes Hpre He. rewrite Hes, fold_left_app. simpl.
    set (mp := fold_left meta_step pre (mkMeta JNull JNull JNull)).
    assert (Hmp : model mp = JNull) by (apply fold_model_null; [exact Hpre | reflexivity]).
    assert (Ha : is_assistant_entry e = true) by (apply entry_model_assistant; exact He).
    assert (Hs : is_summary_entry e = false).
    { destruct (is_summary_entry e) eqn:Es; [|reflexivity].
      rewrite (summary_not_assistant e Es) in Ha. discriminate Ha. }
    assert (Hstep : model (meta_step mp e) = entry_model e).
    { unfold meta_step. rewrite Hs, Ha, He, Hmp. reflexivity. }
    rewrite fold_model_kept; [exact Hstep|].
    rewrite Hstep. intros Hn. rewrite Hn in He. discriminate He.
  - intros Hall. apply fold_model_null; [exact Hall | reflexivity].
  - intros pre e suf Hes Hpre Hs Hc. rewrite Hes, fold_left_app. simpl.
    set (mp := fold_left meta_step pre (mkMeta JNull JNull JNull)).
    assert (Hmp : cwd mp = JNull) by (apply fold_cwd_null; [exact Hpre | reflexivity]).
    assert (Hc1 : cwd (meta_step mp e) = entry_field e "cwd")
      by (unfold meta_step; rewrite Hs, Hmp; reflexivity).
    assert (Hg1 : git_branch (meta_step mp e) = entry_field e "git_branch")
      by (unfold meta_step; rewrite Hs, Hmp; reflexivity).
    rewrite <- Hc1 in Hc. destruct (fold_cwd_kept suf _ Hc) as [Hc2 Hg2].
    rewrite Hc2, Hg2, Hc1, Hg1. split; reflexivity.
  - intros Hall. apply fold_cwd_null; [exact Hall | reflexivity].
  - intros st0 e st1 Hp. cbv zeta. rewrite (parse_entry_meta _ _ _ Hp).
    split; [apply meta_step_model_kept | split; [apply meta_step_cwd_kept|]].
    intros Hc Hs. unfold meta_step. rewrite Hs, Hc. reflexivity.
Qed.

Lemma session_metadata_first_wins_witness :
  exists r, parse_transcript (table_loads c6_table) (c6_fs ["S1"; "S2"; "A"; "S3"]) "/h" "s.jsonl" = Ok r
  /\ model (r_session_metadata r) = JStr "m1"
  /\ cwd (r_session_metadata r) = JStr "/r"
  /\ git_branch (r_session_metadata r) = JStr "b".
Proof.
  destruct (parse_transcript (table_loads c6_table) (c6_fs ["S1"; "S2"; "A"; "S3"]) "/h" "s.jsonl")
    as [r|e] eqn:E.
  - exists r. split; [reflexivity|].
    destruct (session_metadata_first_wins (table_loads c6_table) (c6_fs ["S1"; "S2"; "A"; "S3"])
                "/h" "s.jsonl" ["S1"; "S2"; "A"; "S3"] r eq_refl E)
      as [Hm [_ [Hc _]]].
    split.
    + rewrite (Hm [c6_s1; c6_s2] sc_assistant [c6_s3]);
        [reflexivity | vm_compute; reflexivity | | reflexivity].
      repeat constructor.
    + destruct (Hc [c6_s1] c6_s2 [sc_assistant; c6_s3]) as [Hc1 Hg1];
        [vm_compute; reflexivity | | reflexivity | discriminate |].
      * constructor; [right; reflexivity | constructor].
      * rewrite Hc1, Hg1. split; reflexivity.
  - vm_compute in E. discriminate E.
Defined.

(** C6 (counterexample): [git_branch] is not set once.  A summary entry
    without a cwd sets it to "a"; a later summary entry with a cwd
    overwrites it with "b". *)
Lemma session_metadata_git_branch_overwritten :
  option_map git_branch (c6_meta ["S1"]) = Some (JStr "a")
  /\ option_map git_branch (c6_meta ["S1"; "S2"]) = Some (JStr "b").
Proof. split; vm_compute; reflexivity. Qed.

(** ** Turn timing *)

(** The instant [parse_iso_timestamp] gives for a raw timestamp field. *)
Definition stamp (fromisoformat : string -> option Z) (ts : json) : option Z :=
  match parse_iso_timestamp fromisoformat ts with Ok o => o | Raise _ => None end.

(** The parsed (user, assistant) timestamps of each turn. *)
Definition turn_stamps (fromisoformat : string -> option Z) (turns : list turn)
    : list (option Z * option Z) :=
  map (fun t => (stamp fromisoformat (user_timestamp t),
                 stamp fromisoformat (ar_timestamp (assistant t)))) turns.

Fixpoint first_some (l : list (option Z)) : option Z :=
  match l with
  | [] => None
  | Some x :: _ => Some x
  | None :: rest => first_some rest
  end.

(** Start and end of each turn under the stated rules: the turn's own
    user timestamp, else the previous turn's end, else [fallback]; the end
    is the assistant timestamp, else the start; the previous end is
    carried after every turn. *)
Fixpoint times_from (fallback : Z) (prev : option Z) (stamps : list (option Z * option Z))
    : list (Z * Z) :=
  match stamps with
  | [] => []
  | (u, a) :: rest =>
      let s := match u with
               | Some x => x
               | None => match prev with Some p => p | None => fallback end
               end in
      let e := match a with Some y => y | None => s end in
      (s, e) :: times_from fallback (Some e) rest
  end.

(** The claim as worded: the fallback is the first timestamp seen anywhere
    (user or assistant, in session order), and the clock only when there
    is none. *)
Definition claimed_turn_times (now : Z) (stamps : list (option Z * option Z)) : list (Z * Z) :=
  times_from (match first_some (flat_map (fun '(u, a) => [u; a]) stamps) with
              | Some f => f | None => now end) None stamps.

(** The amended rule: the fallback is the first user timestamp of the
    session, and the clock when no turn has one. *)
Definition amended_turn_times (now : Z) (stamps : list (option Z * option Z)) : list (Z * Z) :=
  times_from (match first_some (map fst stamps) with Some f => f | None => now end) None stamps.

(** A log for runs: "A0" is an assistant entry without a timestamp. *)
Definition c5_a0 : json :=
  JObj [("type", JStr "assistant");
        ("message", JObj [("model", JStr "m1");
           ("content", JArr [JObj [("type", JStr "text"); ("text", JStr "more")]])])].
Definition c5_table : list (string * json) := [("U", sc_user); ("A", sc_assistant); ("A0", c5_a0)].
Definition c5_parsed (lines : list string) : result :=
  match parse_transcript (table_loads c5_table) (c6_fs lines) "/h" "s.jsonl" with
  | Ok r => r
  | Raise _ => initial_result
  end.
Definition c5_gen_times (lines : list string) (now : Z) : option (list (Z * Z)) :=
  match send_to_langfuse iso_model "s" None (c5_parsed lines) now with
  | Ok (_, evs) => Some (gen_times evs)
  | Raise _ => None
  end.

Lemma gen_times_app (l1 l2 : list event) : gen_times (l1 ++ l2) = gen_times l1 ++ gen_times l2.
Proof. unfold gen_times. apply flat_map_app. Qed.

Lemma tool_call_step_gen_times ctx st tc st' :
  tool_call_step ctx st tc = Ok st' -> gen_times (events st') = gen_times (events st).
Proof.
  unfold tool_call_step. intros H. repeat step H;
  try match goal with
  | F : match ?f with Some _ => _ | None => _ end = Ok _ |- _ =>
      destruct f as [[key pt]|]; [repeat step F | injection F as <- <- <- <-]
  end;
  cbn [events]; rewrite !gen_times_app; cbn; rewrite ?app_nil_r; try reflexivity;
  match goal with
  | U : create_background_umbrella_span _ _ _ _ _ _ = Ok _ |- _ =>
      unfold create_background_umbrella_span in U; injection U as <-; apply app_nil_r
  end.
Qed.

Lemma tool_calls_gen_times ctx tcs :
  forall st st', res_fold (tool_call_step ctx) tcs st = Ok st' ->
  gen_times (events st') = gen_times (events st).
Proof.
  induction tcs as [|tc tcs IH]; intros st st' H; simpl in H.
  - injection H as <-. reflexivity.
  - destruct (tool_call_step ctx st tc) as [st1|] eqn:E; cbn [bind] in H; [|discriminate H].
    rewrite (IH _ _ H). exact (tool_call_step_gen_times _ _ _ _ E).
Qed.

Lemma stamp_ok (fromisoformat : string -> option Z) ts o :
  parse_iso_timestamp fromisoformat ts = Ok o -> stamp fromisoformat ts = o.
Proof. unfold stamp. intros ->. reflexivity. Qed.

Lemma turn_loop_times (fromisoformat : string -> option Z) trace_id first tr turns :
  forall i st st', turn_loop fromisoformat trace_id first tr i turns st = Ok st' ->
  gen_times (events st')
  = gen_times (events st) ++ times_from first (prev_end_time st) (turn_stamps fromisoformat turns).
Proof.
  induction turns as [|t turns IH]; intros i st st' H; simpl in H.
  - injection H as <-. simpl. rewrite app_nil_r. reflexivity.
  - destruct (turn_step fromisoformat trace_id first tr i st t) as [st1|] eqn:E;
      cbn [bind] in H; [|discriminate H].
    rewrite (IH _ _ _ H). clear H IH.
    unfold turn_step in E.
    destruct (parse_iso_timestamp fromisoformat (user_timestamp t)) as [ut|] eqn:Eu;
      cbn [bind] in E; [|discriminate E].
    destruct (parse_iso_timestamp fromisoformat (ar_timestamp (assistant t))) as [at_|] eqn:Ea;
      cbn [bind] in E; [|discriminate E].
    repeat step E.
    match goal with
    | F : res_fold (tool_call_step _) _ _ = Ok _ |- _ => apply tool_calls_gen_times in F
    end.
    cbn [events prev_end_time] in *.
    match goal with F : gen_times _ = gen_times _ |- _ => rewrite F end.
    cbn [turn_stamps map times_from]. unfold turn_stamps.
    rewrite (stamp_ok _ _ _ Eu), (stamp_ok _ _ _ Ea).
    rewrite gen_times_app, <- app_assoc. reflexivity.
Qed.

Lemma scan_first (fromisoformat : string -> option Z) turns :
  forall acc acc', res_fold (scan_step fromisoformat) turns acc = Ok acc' ->
  fst (fst (fst acc'))
  = match fst (fst (fst acc)) with
    | Some f => Some f
    | None => first_some (map fst (turn_stamps fromisoformat turns))
    end.
Proof.
  induction turns as [|t turns IH]; intros acc acc' H; simpl in H.
  - injection H as <-. destruct (fst (fst (fst acc))); reflexivity.
  - destruct (scan_step fromisoformat acc t) as [acc1|] eqn:E; cbn [bind] in H; [|discriminate H].
    rewrite (IH _ _ H). clear H IH.
    destruct acc as [[[f0 l0] m0] x0]. unfold scan_step in E.
    destruct (parse_iso_timestamp fromisoformat (user_timestamp t)) as [ut|] eqn:Eu;
      cbn [bind] in E; [|discriminate E].
    destruct (parse_iso_timestamp fromisoformat (ar_timestamp (assistant t))) as [at_|] eqn:Ea;
      cbn [bind] in E; [|discriminate E].
    injection E as <-. cbn [fst]. simpl map. rewrite (stamp_ok _ _ _ Eu).
    destruct f0; [reflexivity|]. destruct ut; reflexivity.
Qed.

(** C5 (amended): for every run of the assembler that returns, the
    generations it emits carry, turn by turn, the start and end times of
    [amended_turn_times]: the turn's own parsed user timestamp, else the
    end of the previous turn, else the first parsed user timestamp of the
    session, else the clock; the end is the parsed assistant timestamp,
    else the start; the previous end is carried after every turn. *)
Theorem send_to_langfuse_turn_times (fromisoformat : string -> option Z)
    (session_id : string) (vk_task_id : option string) (parsed : result) (now : Z)
    (pending : list (string * pending_task)) (evs : list event) :
  send_to_langfuse fromisoformat session_id vk_task_id parsed now = Ok (pending, evs) ->
  gen_times evs = amended_turn_times now (turn_stamps fromisoformat (r_turns parsed)).
Proof.
  unfold send_to_langfuse. intros H.
  destruct (res_fold (scan_step fromisoformat) (r_turns parsed) (None, None, None, None))
    as [scan|] eqn:Es; cbn [bind] in H; [|discriminate H].
  apply scan_first in Es. cbn [fst] in Es.
  destruct scan as [[[f l] m] x]. cbn [fst] in Es.
  destruct (turn_loop _ _ _ _ _ _ _) as [st|] eqn:El; cbn [bind] in H; [|discriminate H].
  injection H as _ <-.
  rewrite (turn_loop_times _ _ _ _ _ _ _ _ El). cbn [events prev_end_time].
  unfold amended_turn_times. rewrite <- Es. reflexivity.
Qed.

Lemma send_to_langfuse_turn_times_witness :
  exists p evs,
    send_to_langfuse iso_model "s" None (c5_parsed ["A0"; "U"; "A"; "A0"]) 999 = Ok (p, evs)
    /\ gen_times evs = [(1704067200, 1704067200); (1704067200, 1704067207);
                        (1704067207, 1704067207)]%Z.
Proof.
  destruct (send_to_langfuse iso_model "s" None (c5_parsed ["A0"; "U"; "A"; "A0"]) 999)
    as [[p evs]|e] eqn:E.
  - exists p, evs. split; [reflexivity|].
    rewrite (send_to_langfuse_turn_times iso_model "s" None _ 999 p evs E).
    vm_compute. reflexivity.
  - vm_compute in E. discriminate E.
Defined.

(** C5 (counterexample): a session whose only turn has no user timestamp
    but a parsable assistant timestamp.  The code starts the generation
    at the clock (999), while the claim's rule (c) would start it at the
    assistant timestamp, the first timestamp of the session. *)
Lemma send_to_langfuse_clock_despite_timestamp :
  c5_gen_times ["A"] 999 = Some [(999, 1704067207)%Z]
  /\ claimed_turn_times 999 (turn_stamps iso_model (r_turns (c5_parsed ["A"])))
     = [(1704067207, 1704067207)%Z].
Proof. split; vm_compute; reflexivity. Qed.

(** ** Background tasks *)




(** An umbrella span of background task [bid]. *)
Definition is_umbrella_for (bid : string) (ev : event) : bool :=
  match ev with
  | SpanCreate _ b =>
      match assoc_get "is_background" (s_metadata b), assoc_get "background_task_id" (s_metadata b) with
      | Some (JBool true), Some v => key_eqb (JStr bid) v
      | _, _ => false
      end
  | _ => false
  end.

(** A run of tool calls, each with the context of its turn. *)
Definition run_calls (calls : list (tctx * tool_call)) (st : astate) : res astate :=
  res_fold (fun st '(ctx, tc) => tool_call_step ctx st tc) calls st.

Lemma assoc_get_map_set {A} (d : list (string * A)) (k k' : string) (v : A) :
  assoc_get k (map (fun '(k1, v1) => if String.eqb k' k1 then (k1, v) else (k1, v1)) d)
  = if String.eqb k k' then
      (if existsb (fun '(k1, _) => String.eqb k' k1) d then Some v else None)
    else assoc_get k d.
Proof.
  induction d as [|[k1 v1] d IH]; simpl.
  - destruct (String.eqb k k'); reflexivity.
  - destruct (String.eqb k' k1) eqn:E1; simpl.
    + apply String.eqb_eq in E1; subst k1.
      destruct (String.eqb k k'); [reflexivity | exact IH].
    + rewrite IH. destruct (String.eqb k k1) eqn:E2.
      * apply String.eqb_eq in E2; subst k1.
        rewrite String.eqb_sym, E1. reflexivity.
      * reflexivity.
Qed.

Lemma assoc_get_sdict_set {A} (d : list (string * A)) (k k' : string) (v : A) :
  assoc_get k (sdict_set d k' v) = if String.eqb k k' then Some v else assoc_get k d.
Proof.
  unfold sdict_set. destruct (existsb (fun '(k'', _) => String.eqb k' k'') d) eqn:Ex.
  - rewrite assoc_get_map_set, Ex. reflexivity.
  - induction d as [|[k1 v1] d IH]; simpl in *.
    + destruct (String.eqb k k'); reflexivity.
    + apply orb_false_iff in Ex as [E1 Ex].
      destruct (String.eqb k k1) eqn:E2; [|apply IH; exact Ex].
      apply String.eqb_eq in E2; subst k1.
      destruct (String.eqb k k') eqn:E3; [|reflexivity].
      apply String.eqb_eq in E3; subst k'. rewrite String.eqb_refl in E1. discriminate E1.
Qed.













Lemma run_calls_map (ctx : tctx) (tcs : list tool_call) (st : astate) :
  run_calls (map (fun tc => (ctx, tc)) tcs) st = res_fold (tool_call_step ctx) tcs st.
Proof.
  unfold run_calls. revert st; induction tcs as [|tc tcs IH]; intros st; [reflexivity|].
  simpl. destruct (tool_call_step ctx st tc); [apply IH | reflexivity].
Qed.

(** A turn of [send_to_langfuse] runs its tool calls as [run_calls] with
    the context of the turn, after a step that leaves the pending set and
    the umbrella spans alone. *)
Lemma turn_step_tool_calls (fromisoformat : string -> option Z) trace_id first tr i st t st' :
  turn_step fromisoformat trace_id first tr i st t = Ok st' ->
  exists ctx st1 st2,
    c_trace_id ctx = trace_id /\ c_tool_results ctx = tr
    /\ pending_background_tasks st1 = pending_background_tasks st
    /\ (forall bid, filter (is_umbrella_for bid) (events st1) = filter (is_umbrella_for bid) (events st))
    /\ run_calls (map (fun tc => (ctx, tc)) (ar_tool_calls (assistant t))) st1 = Ok st2
    /\ pending_background_tasks st' = pending_background_tasks st2
    /\ events st' = events st2.
Proof.
  unfold turn_step. intros H. repeat step H.
  match goal with
  | F : res_fold (tool_call_step ?c) _ ?s1 = Ok ?s2 |- _ =>
      exists c, s1, s2;
      split; [reflexivity | split; [reflexivity | split; [reflexivity | split]]];
      [ intros bid; cbn [events]; rewrite filter_app; cbn; apply app_nil_r
      | split; [rewrite run_calls_map; exact F | split; reflexivity]]
  end.
Qed.




(** * Further properties of the code *)

(** ** Activity classification and background-task ids *)

Lemma py_or_idem (v d : json) : py_or (py_or v d) d = py_or v d.
Proof. unfold py_or. destruct (truthy v) eqn:E; [rewrite E|destruct (truthy d)]; reflexivity. Qed.

Lemma classify_activity_or (name input : json) :
  classify_activity name input = classify_activity name (py_or input (JObj [])).
Proof. unfold classify_activity. rewrite py_or_idem. reflexivity. Qed.

Lemma matches_any_empty :
  matches_any git_patterns "" = false /\ matches_any test_patterns "" = false
  /\ matches_any build_patterns "" = false /\ matches_any setup_patterns "" = false.
Proof. vm_compute. repeat split. Qed.

(** X: for any tool name other than "Bash" the classification never looks
    at the tool input. *)
Theorem classify_activity_non_bash_ignores_input (name : json) (input1 input2 : json) :
  eq_str name "Bash" = false ->
  classify_activity name input1 = classify_activity name input2.
Proof.
  intros H. unfold classify_activity. cbv zeta.
  destruct (in_str_set name ["Edit"; "Write"; "NotebookEdit"]) as [[|]|]; cbn [bind]; try reflexivity.
  destruct (in_str_set name ["TodoWrite"; "EnterPlanMode"; "ExitPlanMode"]) as [[|]|]; cbn [bind]; try reflexivity.
  destruct (in_str_set name ["AskUserQuestion"]) as [[|]|]; cbn [bind]; try reflexivity.
  destruct (in_str_set name ["WebSearch"; "WebFetch"]) as [[|]|]; cbn [bind]; try reflexivity.
  destruct (in_str_set name ["Read"; "Glob"; "Grep"; "LSP"; "LS"; "Task";
                             "ListMcpResourcesTool"; "ReadMcpResourceTool"]) as [[|]|];
    cbn [bind]; try reflexivity.
  rewrite H. reflexivity.
Qed.

Lemma classify_activity_non_bash_ignores_input_witness :
  eq_str (JStr "Read") "Bash" = false
  /\ classify_activity (JStr "Read") JNull = classify_activity (JStr "Read") (bash_input "git push").
Proof.
  split; [reflexivity|]. apply classify_activity_non_bash_ignores_input. reflexivity.
Defined.

(** X: a tool name that is a list or a dict makes the classification raise
    TypeError (set membership hashes it), whatever the input. *)
Theorem classify_activity_unhashable_name (name input : json) :
  hashable name = false -> classify_activity name input = Raise TypeError.
Proof. intros H. unfold classify_activity, in_str_set. rewrite H. reflexivity. Qed.

Lemma classify_activity_unhashable_name_witness :
  hashable (JArr [JStr "Bash"]) = false
  /\ classify_activity (JArr [JStr "Bash"]) (bash_input "ls") = Raise TypeError.
Proof. split; [reflexivity | apply classify_activity_unhashable_name; reflexivity]. Defined.

(** X: a Bash call whose input is empty or None, or a dict without a
    "command" key, is classified OTHER: the command defaults to "" and no
    pattern matches the empty string. *)
Theorem classify_bash_without_command (input : json) :
  (truthy input = false \/ exists o, input = JObj o /\ assoc_get "command" o = None) ->
  classify_activity (JStr "Bash") input = Ok OTHER.
Proof.
  intros H. rewrite classify_activity_or.
  destruct matches_any_empty as [G [T [B S]]].
  destruct H as [H | [o [-> Ho]]].
  - unfold py_or. rewrite H.
    rewrite (classify_bash_command [] "" eq_refl), G, T, B, S. reflexivity.
  - assert (Hor : py_or (JObj o) (JObj []) = JObj o) by (destruct o; reflexivity).
    rewrite Hor.
    rewrite (classify_bash_command o ""); [rewrite G, T, B, S; reflexivity|].
    unfold dict_get. rewrite Ho. reflexivity.
Qed.

Lemma classify_bash_without_command_witness :
  classify_activity (JStr "Bash") JNull = Ok OTHER
  /\ classify_activity (JStr "Bash") (JObj [("description", JStr "git status")]) = Ok OTHER.
Proof.
  split; apply classify_bash_without_command; [left; reflexivity|].
  right. eexists. split; reflexivity.
Defined.

(** X: Bash calls are only ever classified GIT, TEST, BUILD, SETUP or
    OTHER; the name-based kinds never come out of the command patterns. *)
Theorem classify_bash_kinds (input : json) (k : kind) :
  classify_activity (JStr "Bash") input = Ok k -> In k [GIT; TEST; BUILD; SETUP; OTHER].
Proof.
  intros H. unfold classify_activity in H. cbv zeta in H.
  cbn [in_str_set hashable existsb String.eqb Ascii.eqb Bool.eqb andb bind eq_str] in H.
  repeat step H; simpl in *; try discriminate; tauto.
Qed.

Lemma classify_bash_kinds_witness :
  classify_activity (JStr "Bash") (bash_input "git commit -m x") = Ok GIT
  /\ In GIT [GIT; TEST; BUILD; SETUP; OTHER].
Proof.
  assert (H : classify_activity (JStr "Bash") (bash_input "git commit -m x") = Ok GIT)
    by (vm_compute; reflexivity).
  split; [exact H | exact (classify_bash_kinds _ _ H)].
Defined.

Lemma take_while_all (p : ascii -> bool) (l : list ascii) : forallb p (take_while p l) = true.
Proof. induction l as [|c l IH]; simpl; [reflexivity|]. destruct (p c) eqn:E; simpl; rewrite ?E; auto. Qed.

Lemma bg_search_alnum (l : list ascii) (b : string) :
  bg_search l = Some b -> b <> "" /\ forallb is_alnum_ascii (list_ascii_of_string b) = true.
Proof.
  induction l as [|c l IH]; intros H; cbn [bg_search] in H.
  - discriminate H.
  - destruct (strip_prefix bg_marker (c :: l)) as [rest|].
    + destruct (take_while is_alnum_ascii (drop_while is_space rest)) as [|x r] eqn:E.
      * apply IH. exact H.
      * injection H as <-. split; [discriminate|].
        pose proof (take_while_all is_alnum_ascii (drop_while is_space rest)) as T.
        rewrite E in T. cbn [list_ascii_of_string string_of_list_ascii].
        rewrite list_ascii_of_string_of_list_ascii. exact T.
    + apply IH. exact H.
Qed.

Lemma text_search_alnum (t : json) (b : string) :
  text_search t = Ok (Some b) -> b <> "" /\ forallb is_alnum_ascii (list_ascii_of_string b) = true.
Proof. destruct t; cbn [text_search]; try discriminate. intros H. injection H. apply bg_search_alnum. Qed.

(** X: a background task id taken from a tool output is never empty and
    consists of ASCII letters and digits only. *)
Theorem extract_background_task_id_alnum (out : json) (b : string) :
  extract_background_task_id out = Ok (Some b) ->
  b <> "" /\ forallb is_alnum_ascii (list_ascii_of_string b) = true.
Proof.
  destruct out as [| | |s|blocks|o]; cbn [extract_background_task_id]; try discriminate;
    try apply text_search_alnum.
  - intros H. destruct (py_join _ _); cbn [bind] in H; [|discriminate H].
    apply text_search_alnum in H. exact H.
  - destruct (eq_str (dict_get o "type" JNull) "text"); apply text_search_alnum.
Qed.

Lemma extract_background_task_id_alnum_witness :
  extract_background_task_id (JStr "Command running in background with ID: b7x2.") = Ok (Some "b7x2")
  /\ "b7x2" <> "" /\ forallb is_alnum_ascii (list_ascii_of_string "b7x2") = true.
Proof.
  assert (H : extract_background_task_id (JStr "Command running in background with ID: b7x2.")
              = Ok (Some "b7x2")) by (vm_compute; reflexivity).
  split; [exact H | exact (extract_background_task_id_alnum _ _ H)].
Defined.

Lemma list_ascii_of_string_app (s1 s2 : string) :
  list_ascii_of_string (s1 ++ s2) = list_ascii_of_string s1 ++ list_ascii_of_string s2.
Proof. induction s1 as [|c s1 IH]; simpl; [reflexivity | rewrite IH; reflexivity]. Qed.

Lemma strip_prefix_app (p l : list ascii) : strip_prefix p (p ++ l) = Some l.
Proof. induction p as [|x p IH]; simpl; [reflexivity | rewrite Ascii.eqb_refl; exact IH]. Qed.

Lemma alnum_not_space (c : ascii) : is_alnum_ascii c = true -> is_space c = false.
Proof.
  destruct c as [[] [] [] [] [] [] [] []]; vm_compute; first [reflexivity | discriminate].
Qed.

Lemma drop_while_spaces (ws l : list ascii) :
  forallb is_space ws = true ->
  match l with c :: _ => is_space c = false | [] => True end ->
  drop_while is_space (ws ++ l) = l.
Proof.
  intros Hw Hl. induction ws as [|c ws IH]; cbn [app drop_while forallb] in *.
  - destruct l as [|c l]; [reflexivity|]. cbn [drop_while]. rewrite Hl. reflexivity.
  - apply andb_prop in Hw as [Hc Hw]. rewrite Hc. apply IH. exact Hw.
Qed.

Lemma take_while_alnum (id l : list ascii) :
  forallb is_alnum_ascii id = true ->
  match l with c :: _ => is_alnum_ascii c = false | [] => True end ->
  take_while is_alnum_ascii (id ++ l) = id.
Proof.
  intros Hi Hl. induction id as [|c id IH]; cbn [app take_while forallb] in *.
  - destruct l as [|c l]; [reflexivity|]. cbn [take_while]. rewrite Hl. reflexivity.
  - apply andb_prop in Hi as [Hc Hi]. rewrite Hc, IH by exact Hi. reflexivity.
Qed.

Lemma bg_search_eq (l : list ascii) :
  bg_search l
  = match
      match strip_prefix bg_marker l with
      | Some rest =>
          match take_while is_alnum_ascii (drop_while is_space rest) with
          | [] => None
          | id => Some (string_of_list_ascii id)
          end
      | None => None
      end
    with
    | Some id => Some id
    | None => match l with _ :: l' => bg_search l' | [] => None end
    end.
Proof. destruct l; reflexivity. Qed.

Lemma bg_search_skip (pre l : list ascii) :
  forallb (fun c => negb (Ascii.eqb c "C"%char)) pre = true ->
  bg_search (pre ++ l) = bg_search l.
Proof.
  induction pre as [|c pre IH]; intros H; [reflexivity|].
  simpl in H. apply andb_prop in H as [Hc H].
  cbn [app bg_search]. unfold bg_marker at 1.
  replace (strip_prefix (list_ascii_of_string "Command running in background with ID:") (c :: pre ++ l))
    with (@None (list ascii)).
  - apply IH. exact H.
  - cbn [list_ascii_of_string strip_prefix]. rewrite Ascii.eqb_sym.
    destruct (Ascii.eqb c "C"%char); [discriminate Hc | reflexivity].
Qed.

(** X: round trip: a tool output whose text is [pre], the marker, blanks,
    an id of letters and digits, and a rest that does not continue the id
    yields that id, whether the output is the string, a one-block list or
    a text block, provided [pre] holds no "C" (so no earlier match can
    start there). *)
Theorem extract_background_task_id_roundtrip (pre ws id suf : string) :
  forallb (fun c => negb (Ascii.eqb c "C"%char)) (list_ascii_of_string pre) = true ->
  forallb is_space (list_ascii_of_string ws) = true ->
  id <> "" -> forallb is_alnum_ascii (list_ascii_of_string id) = true ->
  match suf with String c _ => is_alnum_ascii c = false | EmptyString => True end ->
  let s := (pre ++ "Command running in background with ID:" ++ ws ++ id ++ suf)%string in
  extract_background_task_id (JStr s) = Ok (Some id)
  /\ extract_background_task_id (JArr [JStr s]) = Ok (Some id)
  /\ extract_background_task_id (JObj [("type", JStr "text"); ("text", JStr s)]) = Ok (Some id).
Proof.
  intros Hp Hw Hn Hi Hs s.
  assert (E : bg_search (list_ascii_of_string s) = Some id).
  { unfold s. rewrite !list_ascii_of_string_app, bg_search_skip by exact Hp.
    destruct (list_ascii_of_string id) as [|c0 r0] eqn:Eid.
    - destruct id; [contradiction | discriminate Eid].
    - change (list_ascii_of_string "Command running in background with ID:") with bg_marker.
      rewrite bg_search_eq, strip_prefix_app.
      rewrite <- Eid. rewrite <- Eid in Hi.
      rewrite drop_while_spaces.
      + rewrite take_while_alnum; [| exact Hi | destruct suf; simpl; [exact I | exact Hs]].
        rewrite Eid. rewrite <- Eid, string_of_list_ascii_of_string. reflexivity.
      + exact Hw.
      + rewrite Eid. cbn [app]. apply alnum_not_space. rewrite Eid in Hi.
        cbn [forallb] in Hi. apply andb_prop in Hi. tauto. }
  split; [|split]; cbn; rewrite ?E; reflexivity.
Qed.

Lemma extract_background_task_id_roundtrip_witness :
  let s := ("ok " ++ "Command running in background with ID:" ++ "  " ++ "abc123" ++ ".")%string in
  extract_background_task_id (JStr s) = Ok (Some "abc123")
  /\ extract_background_task_id (JArr [JStr s]) = Ok (Some "abc123")
  /\ extract_background_task_id (JObj [("type", JStr "text"); ("text", JStr s)]) = Ok (Some "abc123").
Proof.
  apply (extract_background_task_id_roundtrip "ok " "  " "abc123" ".");
    [vm_compute; reflexivity | vm_compute; reflexivity | discriminate
    | vm_compute; reflexivity | vm_compute; reflexivity].
Defined.

(** X: outputs that carry no text (None, a boolean, a number, or a dict
    that is not a text block) yield no background task id. *)
Theorem extract_background_task_id_no_text (out : json) :
  (out = JNull \/ (exists b, out = JBool b) \/ (exists n, out = JNum n)
   \/ (exists o, out = JObj o /\ eq_str (dict_get o "type" JNull) "text" = false)) ->
  extract_background_task_id out = Ok None.
Proof.
  intros [-> | [[b ->] | [[n ->] | [o [-> H]]]]]; try reflexivity.
  cbn [extract_background_task_id]. rewrite H. reflexivity.
Qed.

Lemma extract_background_task_id_no_text_witness :
  extract_background_task_id (JObj [("type", JStr "image");
                                    ("text", JStr "Command running in background with ID: abc")])
  = Ok None.
Proof.
  apply extract_background_task_id_no_text. right. right. right.
  eexists. split; reflexivity.
Defined.

(** X: a text block whose "text" is not a string makes the extraction
    raise TypeError, whether the block is the output or an item of a list
    output. *)
Theorem extract_background_task_id_text_not_string (o : list (string * json)) (v : json) :
  eq_str (dict_get o "type" JNull) "text" = true ->
  assoc_get "text" o = Some v -> (forall s, v <> JStr s) ->
  extract_background_task_id (JObj o) = Raise TypeError
  /\ extract_background_task_id (JArr [JObj o]) = Raise TypeError.
Proof.
  intros Ht Hv Hs. cbn [extract_background_task_id flat_map].
  rewrite Ht. unfold dict_get at 1 2. rewrite Hv.
  destruct v; try (exfalso; eapply Hs; reflexivity); split; reflexivity.
Qed.

Lemma extract_background_task_id_text_not_string_witness :
  extract_background_task_id (JObj [("type", JStr "text"); ("text", JNull)]) = Raise TypeError
  /\ extract_background_task_id (JArr [JObj [("type", JStr "text"); ("text", JNull)]]) = Raise TypeError.
Proof.
  apply (extract_background_task_id_text_not_string _ JNull); [reflexivity | reflexivity | discriminate].
Defined.

(** ** Parser: errors, totals, pairing, tool results *)

Lemma parse_transcript_raise_at (json_loads : string -> option json)
    (fs : string -> option fsnode) (home path : string)
    (pre post : list string) (l : string) (st : pstate) (e : json) (x : exn) :
  fs (replace_char "~"%char home path) = Some (FFile (pre ++ l :: post)) ->
  parse_lines json_loads pre initial_pstate = Ok st ->
  line_entry json_loads l = Some e ->
  parse_entry st e = Raise x ->
  parse_transcript json_loads fs home path = Raise x.
Proof.
  intros Hf Hp Hl He. unfold parse_transcript. rewrite Hf.
  rewrite parse_lines_app, Hp. cbn [bind].
  unfold parse_lines. cbn [res_fold]. unfold parse_line. unfold line_entry in Hl.
  destruct (String.eqb (strip l) ""); [discriminate Hl|]. rewrite Hl, He. reflexivity.
Qed.

(** X: a line that decodes to JSON other than an object (a list, a string,
    a number, true/false or null) is not skipped: [entry.get] raises
    AttributeError and the whole parse fails. *)
Theorem parse_transcript_non_object_entry (json_loads : string -> option json)
    (fs : string -> option fsnode) (home path : string)
    (pre post : list string) (l : string) (st : pstate) (v : json) :
  fs (replace_char "~"%char home path) = Some (FFile (pre ++ l :: post)) ->
  parse_lines json_loads pre initial_pstate = Ok st ->
  line_entry json_loads l = Some v -> (forall o, v <> JObj o) ->
  parse_transcript json_loads fs home path = Raise AttributeError.
Proof.
  intros Hf Hp Hl Hv. eapply parse_transcript_raise_at; [exact Hf | exact Hp | exact Hl |].
  unfold parse_entry. destruct v; try reflexivity. exfalso. eapply Hv. reflexivity.
Qed.

Definition x_fs (lines : list string) (p : string) : option fsnode :=
  if String.eqb p "/h/t.jsonl" then Some (FFile lines) else None.

Lemma parse_transcript_non_object_entry_witness :
  exists st,
    x_fs ["U"; "L"; "A"] (replace_char "~"%char "/h" "~/t.jsonl") = Some (FFile (["U"] ++ "L" :: ["A"]))
    /\ parse_lines (table_loads [("U", sc_user); ("A", sc_assistant); ("L", JArr [])]) ["U"] initial_pstate = Ok st
    /\ line_entry (table_loads [("U", sc_user); ("A", sc_assistant); ("L", JArr [])]) "L" = Some (JArr [])
    /\ parse_transcript (table_loads [("U", sc_user); ("A", sc_assistant); ("L", JArr [])])
         (x_fs ["U"; "L"; "A"]) "/h" "~/t.jsonl" = Raise AttributeError.
Proof.
  destruct (parse_lines (table_loads [("U", sc_user); ("A", sc_assistant); ("L", JArr [])]) ["U"]
              initial_pstate) as [st|e] eqn:Hp; [|vm_compute in Hp; discriminate Hp].
  exists st. split; [reflexivity|]. split; [reflexivity|]. split; [vm_compute; reflexivity|].
  apply (parse_transcript_non_object_entry _ _ "/h" "~/t.jsonl" ["U"] ["A"] "L" st (JArr []));
    [reflexivity | exact Hp | vm_compute; reflexivity | discriminate].
Defined.

Lemma eq_str_true (v : json) (s : string) : eq_str v s = true -> v = JStr s.
Proof. destruct v; try discriminate. cbn [eq_str]. intros H. apply String.eqb_eq in H. subst. reflexivity. Qed.

(** The message content of a user or assistant entry. *)
Definition entry_content (o : list (string * json)) : json :=
  match dict_get o "message" (JObj []) with
  | JObj m => dict_get m "content" (JArr [])
  | _ => JNull
  end.

Lemma parse_entry_content_not_iterable (st : pstate) (o : list (string * json)) :
  (eq_str (dict_get o "type" JNull) "user" = true \/ eq_str (dict_get o "type" JNull) "assistant" = true) ->
  (exists m, dict_get o "message" (JObj []) = JObj m) ->
  match entry_content o with JNull | JBool _ | JNum _ => True | _ => False end ->
  parse_entry st (JObj o) = Raise TypeError.
Proof.
  unfold entry_content. intros Ht [m Hm] Hc. rewrite Hm in Hc.
  unfold parse_entry. cbn [py_get bind]. rewrite Hm. cbn [py_get bind].
  destruct Ht as [Ht | Ht]; apply eq_str_true in Ht; rewrite Ht; cbn [eq_str String.eqb Ascii.eqb Bool.eqb andb];
    destruct (dict_get m "content" (JArr [])); try contradiction; reflexivity.
Qed.

(** X: a user or assistant entry whose message content is None, a boolean
    or a number is not skipped: iterating over it raises TypeError and the
    whole parse fails. *)
Theorem parse_transcript_content_not_iterable (json_loads : string -> option json)
    (fs : string -> option fsnode) (home path : string)
    (pre post : list string) (l : string) (st : pstate) (o : list (string * json)) :
  fs (replace_char "~"%char home path) = Some (FFile (pre ++ l :: post)) ->
  parse_lines json_loads pre initial_pstate = Ok st ->
  line_entry json_loads l = Some (JObj o) ->
  (eq_str (dict_get o "type" JNull) "user" = true \/ eq_str (dict_get o "type" JNull) "assistant" = true) ->
  (exists m, dict_get o "message" (JObj []) = JObj m) ->
  match entry_content o with JNull | JBool _ | JNum _ => True | _ => False end ->
  parse_transcript json_loads fs home path = Raise TypeError.
Proof.
  intros Hf Hp Hl Ht Hm Hc. eapply parse_transcript_raise_at; [exact Hf | exact Hp | exact Hl |].
  apply parse_entry_content_not_iterable; assumption.
Qed.

Definition x_null_user : json :=
  JObj [("type", JStr "user"); ("message", JObj [("content", JNull)])].
Definition x_loads : string -> option json :=
  table_loads [("U", sc_user); ("A", sc_assistant); ("L", JArr []); ("N", x_null_user)].

Lemma parse_transcript_content_not_iterable_witness :
  exists st,
    x_fs ["U"; "A"; "N"] (replace_char "~"%char "/h" "~/t.jsonl") = Some (FFile (["U"; "A"] ++ "N" :: []))
    /\ parse_lines x_loads ["U"; "A"] initial_pstate = Ok st
    /\ line_entry x_loads "N" = Some x_null_user
    /\ parse_transcript x_loads (x_fs ["U"; "A"; "N"]) "/h" "~/t.jsonl" = Raise TypeError.
Proof.
  destruct (parse_lines x_loads ["U"; "A"] initial_pstate) as [st|e] eqn:Hp;
    [|vm_compute in Hp; discriminate Hp].
  exists st. split; [reflexivity|]. split; [reflexivity|]. split; [vm_compute; reflexivity|].
  apply (parse_transcript_content_not_iterable _ _ "/h" "~/t.jsonl" ["U"; "A"] [] "N" st
           [("type", JStr "user"); ("message", JObj [("content", JNull)])]);
    [reflexivity | exact Hp | vm_compute; reflexivity | left; reflexivity
    | eexists; reflexivity | exact I].
Defined.

(** X: an assistant entry whose message content is a non-empty string is
    not read as text: its characters are iterated as blocks, [block.get]
    raises AttributeError on the first one and the whole parse fails. *)
Theorem parse_transcript_assistant_string_content (json_loads : string -> option json)
    (fs : string -> option fsnode) (home path : string)
    (pre post : list string) (l : string) (st : pstate) (o m : list (string * json)) (s : string) :
  fs (replace_char "~"%char home path) = Some (FFile (pre ++ l :: post)) ->
  parse_lines json_loads pre initial_pstate = Ok st ->
  line_entry json_loads l = Some (JObj o) ->
  eq_str (dict_get o "type" JNull) "assistant" = true ->
  dict_get o "message" (JObj []) = JObj m ->
  dict_get m "content" (JArr []) = JStr s -> s <> "" ->
  parse_transcript json_loads fs home path = Raise AttributeError.
Proof.
  intros Hf Hp Hl Ht Hm Hc Hs. eapply parse_transcript_raise_at; [exact Hf | exact Hp | exact Hl |].
  unfold parse_entry. cbn [py_get bind]. rewrite Hm. cbn [py_get bind].
  apply eq_str_true in Ht; rewrite Ht; cbn [eq_str String.eqb Ascii.eqb Bool.eqb andb].
  rewrite Hc. cbn [py_iter bind].
  destruct s as [|c s]; [contradiction|]. reflexivity.
Qed.

Definition x_str_assistant : json :=
  JObj [("type", JStr "assistant"); ("message", JObj [("content", JStr "hi")])].
Definition x_loads2 : string -> option json :=
  table_loads [("U", sc_user); ("S", x_str_assistant)].

Lemma parse_transcript_assistant_string_content_witness :
  exists st,
    x_fs ["U"; "S"] (replace_char "~"%char "/h" "~/t.jsonl") = Some (FFile (["U"] ++ "S" :: []))
    /\ parse_lines x_loads2 ["U"] initial_pstate = Ok st
    /\ line_entry x_loads2 "S" = Some x_str_assistant
    /\ parse_transcript x_loads2 (x_fs ["U"; "S"]) "/h" "~/t.jsonl" = Raise AttributeError.
Proof.
  destruct (parse_lines x_loads2 ["U"] initial_pstate) as [st|e] eqn:Hp;
    [|vm_compute in Hp; discriminate Hp].
  exists st. split; [reflexivity|]. split; [reflexivity|]. split; [vm_compute; reflexivity|].
  apply (parse_transcript_assistant_string_content _ _ "/h" "~/t.jsonl" ["U"] [] "S" st
           [("type", JStr "assistant"); ("message", JObj [("content", JStr "hi")])]
           [("content", JStr "hi")] "hi");
    [reflexivity | exact Hp | vm_compute; reflexivity | reflexivity | reflexivity | reflexivity
    | discriminate].
Defined.

(** The value [+=] adds to an int total for a usage field. *)
Definition py_int (v : json) : Z :=
  match v with JNum n => n | JBool b => if b then 1 else 0 | _ => 0 end%Z.

(** The sum of one usage field over the turns. *)
Definition usage_total (f : usage -> json) (turns : list turn) : Z :=
  fold_right (fun t acc => (py_int (f (ar_usage (assistant t))) + acc)%Z) 0%Z turns.

Lemma usage_total_app (f : usage -> json) (l1 l2 : list turn) :
  usage_total f (l1 ++ l2) = (usage_total f l1 + usage_total f l2)%Z.
Proof. induction l1 as [|t l1 IH]; simpl; [reflexivity | unfold usage_total in *; rewrite IH; lia]. Qed.

Lemma py_add_int (t t' : Z) (v : json) : py_add t v = Ok t' -> t' = (t + py_int v)%Z.
Proof. destruct v; cbn [py_add]; try discriminate; intros H; injection H as <-; reflexivity. Qed.

Definition totals_inv (r : result) : Prop :=
  input_tokens (r_totals r) = usage_total u_input_tokens (r_turns r)
  /\ output_tokens (r_totals r) = usage_total u_output_tokens (r_turns r)
  /\ cache_read_input_tokens (r_totals r) = usage_total u_cache_read_input_tokens (r_turns r)
  /\ cache_creation_input_tokens (r_totals r) = usage_total u_cache_creation_input_tokens (r_turns r).

Lemma parse_entry_totals (st st' : pstate) (e : json) :
  totals_inv (p_result st) -> parse_entry st e = Ok st' -> totals_inv (p_result st').
Proof.
  intros Hi H. unfold parse_entry in H. repeat step H; try exact Hi;
  repeat match goal with F : py_add _ _ = Ok _ |- _ => apply py_add_int in F; subst end;
  unfold totals_inv in *; cbn [p_result r_totals r_turns set_metadata input_tokens output_tokens
    cache_read_input_tokens cache_creation_input_tokens] in *;
  rewrite ?usage_total_app; cbn [usage_total fold_right assistant ar_usage
    u_input_tokens u_output_tokens u_cache_read_input_tokens u_cache_creation_input_tokens];
  lia.
Qed.

Lemma parse_lines_totals (json_loads : string -> option json) (lines : list string) :
  forall st st', totals_inv (p_result st) -> parse_lines json_loads lines st = Ok st' ->
  totals_inv (p_result st').
Proof.
  induction lines as [|l lines IH]; intros st st' Hi H; unfold parse_lines in H; simpl in H.
  - injection H as <-. exact Hi.
  - destruct (parse_line json_loads st l) as [st1|] eqn:E; cbn [bind] in H; [|discriminate H].
    apply (IH st1); [|exact H].
    unfold parse_line in E. destruct (String.eqb (strip l) ""); [injection E as <-; exact Hi|].
    destruct (json_loads (strip l)); [|injection E as <-; exact Hi].
    exact (parse_entry_totals _ _ _ Hi E).
Qed.

(** X: whenever parsing succeeds, each of the four token totals equals the
    sum of that usage field over the turns (booleans counting as 0 or 1,
    as Python's [+=] does). *)
Theorem parse_transcript_token_totals (json_loads : string -> option json)
    (fs : string -> option fsnode) (home path : string) (r : result) :
  parse_transcript json_loads fs home path = Ok r ->
  input_tokens (r_totals r) = usage_total u_input_tokens (r_turns r)
  /\ output_tokens (r_totals r) = usage_total u_output_tokens (r_turns r)
  /\ cache_read_input_tokens (r_totals r) = usage_total u_cache_read_input_tokens (r_turns r)
  /\ cache_creation_input_tokens (r_totals r) = usage_total u_cache_creation_input_tokens (r_turns r).
Proof.
  unfold parse_transcript. intros H.
  destruct (fs (replace_char "~"%char home path)) as [[lines|]|]; try discriminate H.
  - destruct (parse_lines json_loads lines initial_pstate) as [st|] eqn:E; cbn [bind] in H;
      [|discriminate H].
    injection H as <-. apply (parse_lines_totals _ _ _ _ (ltac:(repeat split) : totals_inv (p_result initial_pstate)) E).
  - injection H as <-. repeat split.
Qed.

Lemma parse_transcript_token_totals_witness :
  exists r,
    parse_transcript (table_loads sc_table) (x_fs ["U"; "A"; "U"; "A"]) "/h" "~/t.jsonl" = Ok r
    /\ input_tokens (r_totals r) = 10%Z
    /\ input_tokens (r_totals r) = usage_total u_input_tokens (r_turns r).
Proof.
  destruct (parse_transcript (table_loads sc_table) (x_fs ["U"; "A"; "U"; "A"]) "/h" "~/t.jsonl")
    as [r|e] eqn:E; [|vm_compute in E; discriminate E].
  exists r. split; [reflexivity|].
  destruct (parse_transcript_token_totals _ _ _ _ r E) as [Hi _].
  split; [|exact Hi]. vm_compute in E. injection E as <-. reflexivity.
Defined.

Lemma eq_str_assistant_not (v : json) :
  eq_str v "assistant" = true -> eq_str v "summary" = false /\ eq_str v "user" = false.
Proof. intros H. apply eq_str_true in H. subst. split; reflexivity. Qed.

(** X: an assistant entry that parses appends exactly one turn, which takes
    the pending user message and user timestamp, and clears both: the
    next assistant entry without a user entry in between gets a turn with
    no user message and no user timestamp. *)
Theorem parse_entry_assistant_pairs (st st' : pstate) (e : json) :
  is_assistant_entry e = true -> parse_entry st e = Ok st' ->
  exists t, r_turns (p_result st') = r_turns (p_result st) ++ [t]
    /\ user_message t = pending_user_message st
    /\ user_timestamp t = pending_user_timestamp st
    /\ pending_user_message st' = None /\ pending_user_timestamp st' = JNull.
Proof.
  destruct e as [| | | | |o]; try discriminate. unfold is_assistant_entry. intros Ha H.
  destruct (eq_str_assistant_not _ Ha) as [Hs Hu].
  unfold parse_entry in H. cbn [py_get bind] in H. rewrite Hs, Hu, Ha in H. cbn [andb] in H.
  repeat step H. eexists. cbn [p_result r_turns pending_user_message pending_user_timestamp].
  repeat split; reflexivity.
Qed.

Lemma parse_entry_assistant_pairs_witness :
  exists st',
    is_assistant_entry sc_assistant = true
    /\ parse_entry (mkP initial_result (Some "fix bug") (JStr "t0")) sc_assistant = Ok st'
    /\ exists t, r_turns (p_result st') = [] ++ [t]
         /\ user_message t = Some "fix bug" /\ user_timestamp t = JStr "t0"
         /\ pending_user_message st' = None /\ pending_user_timestamp st' = JNull.
Proof.
  destruct (parse_entry (mkP initial_result (Some "fix bug") (JStr "t0")) sc_assistant)
    as [st'|x] eqn:E; [|vm_compute in E; discriminate E].
  exists st'. split; [reflexivity|]. split; [reflexivity|].
  exact (parse_entry_assistant_pairs _ _ sc_assistant eq_refl E).
Defined.

Lemma user_blocks_no_text (blocks : list json) :
  Forall (fun b => exists ob, b = JObj ob /\ eq_str (dict_get ob "type" JNull) "text" = false) blocks ->
  forall tp tr acc', res_fold user_block blocks (tp, tr) = Ok acc' -> fst acc' = tp.
Proof.
  induction 1 as [|b blocks [ob [-> Hb]] Hrest IH]; intros tp tr acc' H; cbn [res_fold] in H.
  - injection H as <-. reflexivity.
  - cbn [user_block] in H. rewrite Hb in H.
    destruct (eq_str (dict_get ob "type" JNull) "tool_result");
      [destruct (truthy (dict_get ob "tool_use_id" JNull)) |]; cbn [bind] in H.
    + destruct (dict_set _ _ _) as [tr'|]; cbn [bind] in H; [|discriminate H]. exact (IH _ _ _ H).
    + exact (IH _ _ _ H).
    + exact (IH _ _ _ H).
Qed.

(** X: a user entry whose content is a list of dict blocks none of which
    is a text block (for instance only tool results) leaves no pending
    user message: a prompt pending from an earlier user entry is dropped,
    and the entry's own timestamp becomes the pending user timestamp. *)
Theorem parse_entry_tool_results_only_user (st st' : pstate) (o m : list (string * json))
    (blocks : list json) :
  eq_str (dict_get o "type" JNull) "user" = true ->
  dict_get o "message" (JObj []) = JObj m ->
  dict_get m "content" (JArr []) = JArr blocks ->
  Forall (fun b => exists ob, b = JObj ob /\ eq_str (dict_get ob "type" JNull) "text" = false) blocks ->
  parse_entry st (JObj o) = Ok st' ->
  pending_user_message st' = None
  /\ pending_user_timestamp st' = dict_get o "timestamp" JNull
  /\ r_turns (p_result st') = r_turns (p_result st).
Proof.
  intros Ht Hm Hc Hb H. apply eq_str_true in Ht.
  unfold parse_entry in H. cbn [py_get bind] in H. rewrite Ht, Hm in H.
  cbn [eq_str String.eqb Ascii.eqb Bool.eqb andb py_get bind] in H. rewrite Hc in H.
  cbn [py_iter bind] in H.
  destruct (res_fold user_block blocks ([], r_tool_results (p_result st))) as [[tp tr]|] eqn:E;
    cbn [bind] in H; [|discriminate H].
  apply user_blocks_no_text in E; [|exact Hb]. cbn [fst] in E. subst tp.
  cbn [opt_join bind] in H. injection H as <-. repeat split.
Qed.

Definition x_tool_result_user : json :=
  JObj [("type", JStr "user"); ("timestamp", JStr "t2");
        ("message", JObj [("content", JArr [JObj [("type", JStr "tool_result");
                                                 ("tool_use_id", JStr "tu1");
                                                 ("content", JStr "ok")]])])].

Lemma parse_entry_tool_results_only_user_witness :
  exists st',
    parse_entry (mkP initial_result (Some "fix bug") (JStr "t0")) x_tool_result_user = Ok st'
    /\ pending_user_message st' = None /\ pending_user_timestamp st' = JStr "t2"
    /\ r_turns (p_result st') = [].
Proof.
  destruct (parse_entry (mkP initial_result (Some "fix bug") (JStr "t0")) x_tool_result_user)
    as [st'|x] eqn:E; [|vm_compute in E; discriminate E].
  exists st'. split; [reflexivity|].
  refine (parse_entry_tool_results_only_user _ _
            [("type", JStr "user"); ("timestamp", JStr "t2");
             ("message", JObj [("content", JArr [JObj [("type", JStr "tool_result");
                                                      ("tool_use_id", JStr "tu1");
                                                      ("content", JStr "ok")]])])]
            [("content", JArr [JObj [("type", JStr "tool_result"); ("tool_use_id", JStr "tu1");
                                     ("content", JStr "ok")]])] _ eq_refl eq_refl eq_refl _ E).
  repeat constructor. eexists. split; reflexivity.
Defined.

(** ** Tool-results table *)

Lemma key_eqb_sym (a b : json) : key_eqb a b = key_eqb b a.
Proof.
  destruct a, b; cbn [key_eqb]; try reflexivity.
  - destruct b, b0; reflexivity.
  - apply Z.eqb_sym.
  - apply String.eqb_sym.
Qed.

Lemma key_eqb_trans (a b c : json) : key_eqb a b = true -> key_eqb a c = key_eqb b c.
Proof.
  destruct a as [|x|x| | |], b as [|y|y| | |]; cbn [key_eqb]; try discriminate; intros H.
  all: try apply Bool.eqb_prop in H; try apply Z.eqb_eq in H; try apply String.eqb_eq in H;
       subst; try reflexivity.
  all: destruct c as [|b|a| | |]; try reflexivity;
       [repeat match goal with v : bool |- _ => destruct v end; reflexivity | apply Z.eqb_sym].
Qed.

Definition lookup_val (d : list (json * json)) (k : json) : json :=
  match find (fun '(k', _) => key_eqb k k') d with Some (_, v) => v | None => JNull end.

Lemma find_key_ext (a b : json) (d : list (json * json)) :
  key_eqb a b = true ->
  find (fun '(k', _) => key_eqb a k') d = find (fun '(k', _) => key_eqb b k') d.
Proof.
  intros H. induction d as [|[k1 v1] d IH]; cbn [find]; [reflexivity|].
  rewrite (key_eqb_trans _ _ k1 H), IH. reflexivity.
Qed.

Lemma find_some_key (k : json) (d : list (json * json)) :
  existsb (fun '(k', _) => key_eqb k k') d = true ->
  exists k1 v1, find (fun '(k', _) => key_eqb k k') d = Some (k1, v1) /\ key_eqb k k1 = true.
Proof.
  induction d as [|[k1 v1] d IH]; cbn [existsb find]; [discriminate|].
  destruct (key_eqb k k1) eqn:E; cbn [orb]; [intros _; exists k1, v1; split; [reflexivity | exact E]|].
  exact IH.
Qed.

Lemma find_none_key (k : json) (d : list (json * json)) :
  existsb (fun '(k', _) => key_eqb k k') d = false ->
  find (fun '(k', _) => key_eqb k k') d = None.
Proof.
  induction d as [|[k1 v1] d IH]; cbn [existsb find]; [reflexivity|].
  destruct (key_eqb k k1); cbn [orb]; [discriminate | exact IH].
Qed.

Lemma lookup_val_map (d : list (json * json)) (k v k' : json) :
  lookup_val (map (fun '(k1, v1) => if key_eqb k k1 then (k1, v) else (k1, v1)) d) k'
  = if key_eqb k' k then (if existsb (fun '(k1, _) => key_eqb k k1) d then v else JNull)
    else lookup_val d k'.
Proof.
  unfold lookup_val. induction d as [|[k1 v1] d IH]; cbn [map find existsb].
  - destruct (key_eqb k' k); reflexivity.
  - destruct (key_eqb k k1) eqn:E1; cbn [find orb]; destruct (key_eqb k' k1) eqn:E2.
    + rewrite (key_eqb_trans k' k1 k E2), key_eqb_sym, E1. reflexivity.
    + rewrite IH. destruct (key_eqb k' k) eqn:E3; [|reflexivity].
      rewrite (key_eqb_trans k' k k1 E3), E1 in E2. discriminate.
    + destruct (key_eqb k' k) eqn:E3; [|reflexivity].
      rewrite (key_eqb_trans k' k k1 E3), E1 in E2. discriminate.
    + exact IH.
Qed.

Lemma find_app' {A} (f : A -> bool) (l1 l2 : list A) :
  find f (l1 ++ l2) = match find f l1 with Some x => Some x | None => find f l2 end.
Proof. induction l1 as [|x l1 IH]; cbn [app find]; [reflexivity|]. destruct (f x); [reflexivity | exact IH]. Qed.

Lemma lookup_val_set (d d' : list (json * json)) (k v k' : json) :
  dict_set d k v = Ok d' ->
  lookup_val d' k' = if key_eqb k' k then v else lookup_val d k'.
Proof.
  unfold dict_set. destruct (hashable k); [|discriminate].
  destruct (existsb (fun '(k1, _) => key_eqb k k1) d) eqn:Ex; intros H; injection H as <-.
  - rewrite lookup_val_map, Ex. reflexivity.
  - unfold lookup_val. rewrite find_app'. destruct (key_eqb k' k) eqn:E.
    + rewrite (find_key_ext k' k d E), find_none_key by exact Ex. cbn. rewrite E. reflexivity.
    + destruct (find _ d) as [[k1 v1]|]; [reflexivity|]. cbn. rewrite E. reflexivity.
Qed.

(** The content recorded for key [k] after a list of user blocks: that of
    the last tool_result block whose truthy id equals [k], else [prev]. *)
Fixpoint tool_result_for (k : json) (blocks : list json) (prev : json) : json :=
  match blocks with
  | [] => prev
  | JObj o :: bs =>
      let tid := dict_get o "tool_use_id" JNull in
      if eq_str (dict_get o "type" JNull) "tool_result" && truthy tid && key_eqb k tid
      then tool_result_for k bs (dict_get o "content" JNull)
      else tool_result_for k bs prev
  | _ :: bs => tool_result_for k bs prev
  end.

Lemma user_fold_results (k : json) (blocks : list json) :
  forall tp tr tp' tr', res_fold user_block blocks (tp, tr) = Ok (tp', tr') ->
  lookup_val tr' k = tool_result_for k blocks (lookup_val tr k).
Proof.
  induction blocks as [|b blocks IH]; intros tp tr tp' tr' H; cbn [res_fold] in H.
  - injection H as <- <-. reflexivity.
  - destruct b as [| | |s|l|o]; cbn [user_block bind] in H; try (exact (IH _ _ _ _ H)).
    cbn [tool_result_for].
    destruct (eq_str (dict_get o "type" JNull) "text") eqn:Et.
    + cbn [bind] in H. rewrite (IH _ _ _ _ H).
      apply eq_str_true in Et. rewrite Et. reflexivity.
    + destruct (eq_str (dict_get o "type" JNull) "tool_result") eqn:Er; cbn [andb];
        [|cbn [bind] in H; exact (IH _ _ _ _ H)].
      destruct (truthy (dict_get o "tool_use_id" JNull)) eqn:Etr; cbn [andb];
        [|cbn [bind] in H; exact (IH _ _ _ _ H)].
      destruct (dict_set tr _ _) as [tr1|] eqn:Es; cbn [bind] in H; [|discriminate H].
      rewrite (IH _ _ _ _ H), (lookup_val_set _ _ _ _ k Es).
      destruct (key_eqb k (dict_get o "tool_use_id" JNull)); reflexivity.
Qed.

(** X: after a user entry whose content is a list of blocks, looking up a
    tool-use id in the tool-results table gives the content of the last
    tool_result block of the entry carrying that id (ids compared as
    Python dict keys, an empty id ignored), and otherwise what the table
    held before. *)
Theorem parse_entry_tool_results_lookup (st st' : pstate) (o m : list (string * json))
    (blocks : list json) (k : json) :
  eq_str (dict_get o "type" JNull) "user" = true ->
  dict_get o "message" (JObj []) = JObj m ->
  dict_get m "content" (JArr []) = JArr blocks ->
  hashable k = true ->
  parse_entry st (JObj o) = Ok st' ->
  dict_lookup (r_tool_results (p_result st')) k
  = Ok (tool_result_for k blocks (lookup_val (r_tool_results (p_result st)) k)).
Proof.
  intros Ht Hm Hc Hk H. apply eq_str_true in Ht.
  unfold parse_entry in H. cbn [py_get bind] in H. rewrite Ht, Hm in H.
  cbn [eq_str String.eqb Ascii.eqb Bool.eqb andb py_get bind] in H. rewrite Hc in H.
  cbn [py_iter bind] in H.
  destruct (res_fold user_block blocks ([], r_tool_results (p_result st))) as [[tp tr]|] eqn:E;
    cbn [bind] in H; [|discriminate H].
  destruct (opt_join tp); cbn [bind] in H; [|discriminate H]. injection H as <-.
  cbn [p_result r_tool_results]. unfold dict_lookup. rewrite Hk.
  rewrite <- (user_fold_results k blocks _ _ _ _ E). reflexivity.
Qed.

Definition x_two_results : json :=
  JObj [("type", JStr "user");
        ("message", JObj [("content", JArr [
           JObj [("type", JStr "tool_result"); ("tool_use_id", JStr "tu1"); ("content", JStr "first")];
           JObj [("type", JStr "tool_result"); ("tool_use_id", JStr "tu1"); ("content", JStr "second")]])])].

Lemma parse_entry_tool_results_lookup_witness :
  exists st',
    parse_entry (mkP initial_result None JNull) x_two_results = Ok st'
    /\ dict_lookup (r_tool_results (p_result st')) (JStr "tu1") = Ok (JStr "second").
Proof.
  destruct (parse_entry (mkP initial_result None JNull) x_two_results) as [st'|x] eqn:E;
    [|vm_compute in E; discriminate E].
  exists st'. split; [reflexivity|].
  rewrite (parse_entry_tool_results_lookup _ _
             [("type", JStr "user");
              ("message", JObj [("content", JArr [
                 JObj [("type", JStr "tool_result"); ("tool_use_id", JStr "tu1"); ("content", JStr "first")];
                 JObj [("type", JStr "tool_result"); ("tool_use_id", JStr "tu1"); ("content", JStr "second")]])])]
             _ _ (JStr "tu1") eq_refl eq_refl eq_refl eq_refl E).
  vm_compute. reflexivity.
Defined.

(** ** send_to_langfuse: errors, generations and tool spans *)

(** A timestamp field [parse_iso_timestamp] cannot take: truthy but not a string. *)
Definition bad_timestamp (ts : json) : bool :=
  truthy ts && match ts with JStr _ => false | _ => true end.

Lemma parse_iso_timestamp_bad (fromisoformat : string -> option Z) (ts : json) :
  bad_timestamp ts = true -> parse_iso_timestamp fromisoformat ts = Raise AttributeError.
Proof.
  unfold bad_timestamp, parse_iso_timestamp. intros H.
  destruct (truthy ts); [|discriminate H]. destruct ts; try discriminate H; reflexivity.
Qed.

Lemma parse_iso_timestamp_err (fromisoformat : string -> option Z) (ts : json) (e : exn) :
  parse_iso_timestamp fromisoformat ts = Raise e -> e = AttributeError.
Proof.
  unfold parse_iso_timestamp. destruct (truthy ts); [|discriminate].
  destruct ts; try discriminate; intros H; injection H as <-; reflexivity.
Qed.

Lemma scan_fold_bad (fromisoformat : string -> option Z) (turns : list turn) :
  forall acc, (exists t, In t turns /\ (bad_timestamp (user_timestamp t) = true
                                        \/ bad_timestamp (ar_timestamp (assistant t)) = true)) ->
  res_fold (scan_step fromisoformat) turns acc = Raise AttributeError.
Proof.
  induction turns as [|t turns IH]; intros acc [t0 [Hin Hb]]; [destruct Hin|].
  cbn [res_fold]. destruct acc as [[[f l] m] x]. unfold scan_step.
  destruct Hin as [<- | Hin].
  - destruct Hb as [Hb | Hb].
    + rewrite (parse_iso_timestamp_bad _ _ Hb). reflexivity.
    + destruct (parse_iso_timestamp fromisoformat (user_timestamp t)) as [u|e] eqn:Eu;
        cbn [bind]; [|apply parse_iso_timestamp_err in Eu; subst; reflexivity].
      rewrite (parse_iso_timestamp_bad _ _ Hb). reflexivity.
  - destruct (parse_iso_timestamp fromisoformat (user_timestamp t)) as [u|e] eqn:Eu;
      cbn [bind]; [|apply parse_iso_timestamp_err in Eu; subst; reflexivity].
    destruct (parse_iso_timestamp fromisoformat (ar_timestamp (assistant t))) as [a|e] eqn:Ea;
      cbn [bind]; [|apply parse_iso_timestamp_err in Ea; subst; reflexivity].
    apply IH. exists t0. split; assumption.
Qed.

(** X: if any turn has a user or assistant timestamp that is truthy but
    not a string (a number, a list, a dict, true), the assembler raises
    AttributeError before building any event, wherever the turn is. *)
Theorem send_to_langfuse_bad_timestamp (fromisoformat : string -> option Z)
    (session_id : string) (vk_task_id : option string) (parsed : result) (now : Z) :
  (exists t, In t (r_turns parsed) /\ (bad_timestamp (user_timestamp t) = true
                                      \/ bad_timestamp (ar_timestamp (assistant t)) = true)) ->
  send_to_langfuse fromisoformat session_id vk_task_id parsed now = Raise AttributeError.
Proof.
  intros H. unfold send_to_langfuse. rewrite (scan_fold_bad _ _ _ H). reflexivity.
Qed.

Definition x_num_ts_user : json :=
  JObj [("type", JStr "user"); ("timestamp", JNum 1704067200);
        ("message", JObj [("content", JStr "fix bug")])].
Definition x_num_parsed : result :=
  match parse_transcript (table_loads [("U", x_num_ts_user); ("A", sc_assistant)])
          (c6_fs ["U"; "A"]) "/h" "s.jsonl" with
  | Ok r => r
  | Raise _ => initial_result
  end.

Lemma send_to_langfuse_bad_timestamp_witness :
  (exists t, In t (r_turns x_num_parsed) /\ (bad_timestamp (user_timestamp t) = true
                                            \/ bad_timestamp (ar_timestamp (assistant t)) = true))
  /\ send_to_langfuse iso_model "s" None x_num_parsed 999 = Raise AttributeError.
Proof.
  assert (H : exists t, In t (r_turns x_num_parsed) /\ (bad_timestamp (user_timestamp t) = true
                                            \/ bad_timestamp (ar_timestamp (assistant t)) = true)).
  { vm_compute. eexists. split; [left; reflexivity | left; reflexivity]. }
  split; [exact H | exact (send_to_langfuse_bad_timestamp iso_model "s" None x_num_parsed 999 H)].
Defined.

Definition gen_bodies (evs : list event) : list generation_body :=
  flat_map (fun ev => match ev with GenerationCreate _ g => [g] | _ => [] end) evs.

(** The spans of tool calls: every span but the umbrella spans, which
    carry [is_background = True] in their metadata. *)
Definition tool_span_bodies (evs : list event) : list span_body :=
  flat_map (fun ev => match ev with
                      | SpanCreate _ b =>
                          match assoc_get "is_background" (s_metadata b) with
                          | Some (JBool true) => []
                          | _ => [b]
                          end
                      | _ => []
                      end) evs.

Definition span_proj (b : span_body) : string * string * string * json :=
  (s_trace_id b, s_parent_observation_id b, s_name b, s_input b).

Lemma tool_call_step_spans ctx st tc st' :
  tool_call_step ctx st tc = Ok st' ->
  gen_bodies (events st') = gen_bodies (events st)
  /\ map span_proj (tool_span_bodies (events st'))
     = map span_proj (tool_span_bodies (events st))
       ++ [(c_trace_id ctx, c_generation_id ctx,
            (kind_name (activity_kind tc) ++ "/" ++ py_str (tool_name tc))%string, tool_input tc)].
Proof.
  unfold tool_call_step. intros H. cbv zeta in H.
  destruct (if truthy (tool_use_id tc) then dict_lookup (c_tool_results ctx) (tool_use_id tc)
            else Ok JNull) as [out|] eqn:Eo; cbn [bind] in H; [|discriminate H].
  match type of H with
  | bind ?s _ = _ => destruct s as [[pending meta]|] eqn:Es; cbn [bind] in H; [|discriminate H]
  end.
  assert (Hm : assoc_get "is_background" meta = None).
  { destruct (eq_str (tool_name tc) "Bash" && truthy out); [|injection Es as _ <-; reflexivity].
    destruct (extract_background_task_id out) as [[b|]|]; cbn [bind] in Es;
      [|injection Es as _ <-; reflexivity | discriminate Es].
    destruct (String.eqb b ""); [injection Es as _ <-; reflexivity|].
    destruct (if truthy (tool_input tc) then py_get (tool_input tc) "command" JNull else Ok JNull);
      cbn [bind] in Es; [|discriminate Es].
    injection Es as _ <-. rewrite !assoc_get_sdict_set. reflexivity. }
  clear Es.
  destruct (extract_task_output_info (tool_name tc) (tool_input tc)) as [[tid blk]|];
    cbn [bind] in H; [|discriminate H].
  match type of H with
  | bind ?s _ = _ => destruct s as [found|]; cbn [bind] in H; [|discriminate H]
  end.
  match type of H with
  | bind ?s _ = _ => destruct s as [[[[evs n] meta'] pending']|] eqn:Ec; cbn [bind] in H; [|discriminate H]
  end.
  assert (Hc : gen_bodies evs = gen_bodies (events st)
               /\ tool_span_bodies evs = tool_span_bodies (events st)
               /\ assoc_get "is_background" meta' = None).
  { destruct found as [[key pt]|].
    - unfold create_background_umbrella_span in Ec. cbn [bind] in Ec.
      injection Ec as <- _ <- _. unfold gen_bodies, tool_span_bodies. rewrite !flat_map_app.
      cbn [flat_map s_metadata assoc_get String.eqb Ascii.eqb Bool.eqb andb app].
      rewrite !app_nil_r. split; [reflexivity | split; [reflexivity|]].
      rewrite !assoc_get_sdict_set. exact Hm.
    - injection Ec as <- _ <- _. split; [reflexivity | split; [reflexivity | exact Hm]]. }
  clear Ec. destruct Hc as [Hg [Ht Hm']].
  match type of H with
  | bind ?s _ = _ => destruct s as [[sid n']|]; cbn [bind] in H; [|discriminate H]
  end.
  injection H as <-. cbn [events]. unfold gen_bodies, tool_span_bodies in *.
  rewrite !flat_map_app. cbn [flat_map s_metadata]. rewrite Hm'.
  rewrite Hg, Ht, !app_nil_r, map_app. split; reflexivity.
Qed.

Lemma tool_calls_spans ctx tcs :
  forall st st', res_fold (tool_call_step ctx) tcs st = Ok st' ->
  gen_bodies (events st') = gen_bodies (events st)
  /\ map span_proj (tool_span_bodies (events st'))
     = map span_proj (tool_span_bodies (events st))
       ++ map (fun tc => (c_trace_id ctx, c_generation_id ctx,
                          (kind_name (activity_kind tc) ++ "/" ++ py_str (tool_name tc))%string,
                          tool_input tc)) tcs.
Proof.
  induction tcs as [|tc tcs IH]; intros st st' H; cbn [res_fold] in H.
  - injection H as <-. rewrite app_nil_r. split; reflexivity.
  - destruct (tool_call_step ctx st tc) as [st1|] eqn:E; cbn [bind] in H; [|discriminate H].
    destruct (tool_call_step_spans _ _ _ _ E) as [G1 S1].
    destruct (IH _ _ H) as [G2 S2]. rewrite G2, G1, S2, S1, <- app_assoc. split; reflexivity.
Qed.

(** [str(ts or "")] for a timestamp field: the string, or "" when falsy. *)
Definition ts_str (ts : json) : string := match ts with JStr s => s | _ => "" end.

(** The deterministic generation id of a turn: the seed joins the user
    timestamp, the assistant timestamp and the user message with "|". *)
Definition turn_gen_id (t : turn) : string :=
  generate_deterministic_id
    (ts_str (user_timestamp t) ++ "|" ++ ts_str (ar_timestamp (assistant t)) ++ "|"
     ++ match user_message t with Some m => m | None => "" end) "".

Definition gen_proj (g : generation_body)
    : string * string * string * json * option string * option string :=
  (g_id g, g_trace_id g, g_name g, g_model g, g_input g, g_output g).

Fixpoint expected_generations (trace_id : string) (i : nat) (turns : list turn)
    : list (string * string * string * json * option string * option string) :=
  match turns with
  | [] => []
  | t :: rest =>
      (turn_gen_id t, trace_id, ("llm-response-" ++ nat_str i)%string, ar_model (assistant t),
       user_message t, ar_text_content (assistant t))
      :: expected_generations trace_id (S i) rest
  end.

Definition expected_tool_spans (trace_id : string) (turns : list turn)
    : list (string * string * string * json) :=
  flat_map (fun t => map (fun tc => (trace_id, turn_gen_id t,
                                     (kind_name (activity_kind tc) ++ "/" ++ py_str (tool_name tc))%string,
                                     tool_input tc)) (ar_tool_calls (assistant t))) turns.

Lemma ts_or (fromisoformat : string -> option Z) (ts : json) (o : option Z) :
  parse_iso_timestamp fromisoformat ts = Ok o -> py_or ts (JStr "") = JStr (ts_str ts).
Proof.
  unfold parse_iso_timestamp, py_or. destruct (truthy ts) eqn:E; cbn [negb].
  - destruct ts; try discriminate. reflexivity.
  - intros _. destruct ts; try reflexivity. cbn [truthy] in E.
    destruct (String.eqb s "") eqn:Es; [|discriminate E]. apply String.eqb_eq in Es. subst. reflexivity.
Qed.

Lemma turn_loop_events (fromisoformat : string -> option Z) trace_id first tr turns :
  forall i st st', turn_loop fromisoformat trace_id first tr i turns st = Ok st' ->
  map gen_proj (gen_bodies (events st'))
  = map gen_proj (gen_bodies (events st)) ++ expected_generations trace_id i turns
  /\ map span_proj (tool_span_bodies (events st'))
     = map span_proj (tool_span_bodies (events st)) ++ expected_tool_spans trace_id turns.
Proof.
  induction turns as [|t turns IH]; intros i st st' H; cbn [turn_loop] in H.
  - injection H as <-. rewrite !app_nil_r. split; reflexivity.
  - destruct (turn_step fromisoformat trace_id first tr i st t) as [st1|] eqn:E;
      cbn [bind] in H; [|discriminate H].
    destruct (IH _ _ _ H) as [G2 S2]. rewrite G2, S2. clear H IH G2 S2.
    unfold turn_step in E.
    destruct (parse_iso_timestamp fromisoformat (user_timestamp t)) as [ut|] eqn:Eu;
      cbn [bind] in E; [|discriminate E].
    destruct (parse_iso_timestamp fromisoformat (ar_timestamp (assistant t))) as [at_|] eqn:Ea;
      cbn [bind] in E; [|discriminate E].
    cbv zeta in E. rewrite (ts_or _ _ _ Eu), (ts_or _ _ _ Ea) in E.
    cbn [py_join strs_of bind join] in E.
    destruct (py_plus _ _) as [total|]; cbn [bind] in E; [|discriminate E].
    destruct (res_fold (tool_call_step _) _ _) as [st2|] eqn:Ef; cbn [bind] in E; [|discriminate E].
    injection E as <-. apply tool_calls_spans in Ef as [G1 S1].
    cbn [events c_trace_id c_generation_id] in *. rewrite G1, S1.
    unfold gen_bodies, tool_span_bodies in *. rewrite !flat_map_app. cbn [flat_map].
    rewrite !app_nil_r, !map_app, <- !app_assoc. split; reflexivity.
Qed.

Lemma tool_call_step_prefix ctx st tc st' :
  tool_call_step ctx st tc = Ok st' -> exists rest, events st' = events st ++ rest.
Proof.
  unfold tool_call_step. intros H. repeat step H;
  try match goal with
  | F : match ?f with Some _ => _ | None => _ end = Ok _ |- _ =>
      destruct f as [[key pt]|]; [repeat step F | injection F as <- <- <- <-]
  end;
  cbn [events]; rewrite <- ?app_assoc; eexists; reflexivity.
Qed.

Lemma tool_calls_prefix ctx tcs :
  forall st st', res_fold (tool_call_step ctx) tcs st = Ok st' -> exists rest, events st' = events st ++ rest.
Proof.
  induction tcs as [|tc tcs IH]; intros st st' H; cbn [res_fold] in H.
  - injection H as <-. exists []. rewrite app_nil_r. reflexivity.
  - destruct (tool_call_step ctx st tc) as [st1|] eqn:E; cbn [bind] in H; [|discriminate H].
    destruct (tool_call_step_prefix _ _ _ _ E) as [q1 Q1].
    destruct (IH _ _ H) as [q2 Q2]. exists (q1 ++ q2). rewrite Q2, Q1, app_assoc. reflexivity.
Qed.

Lemma turn_loop_prefix (fromisoformat : string -> option Z) trace_id first tr turns :
  forall i st st', turn_loop fromisoformat trace_id first tr i turns st = Ok st' ->
  exists rest, events st' = events st ++ rest.
Proof.
  induction turns as [|t turns IH]; intros i st st' H; cbn [turn_loop] in H.
  - injection H as <-. exists []. rewrite app_nil_r. reflexivity.
  - destruct (turn_step fromisoformat trace_id first tr i st t) as [st1|] eqn:E;
      cbn [bind] in H; [|discriminate H].
    destruct (IH _ _ _ H) as [r2 H2]. rewrite H2.
    assert (H1 : exists r1, events st1 = events st ++ r1).
    { unfold turn_step in E. repeat step E.
      match goal with
      | F : res_fold (tool_call_step _) _ _ = Ok _ |- _ =>
          destruct (tool_calls_prefix _ _ _ _ F) as [r Hr]
      end.
      cbn [events] in Hr |- *. rewrite Hr, <- app_assoc. eexists. reflexivity. }
    destruct H1 as [r1 H1]. rewrite H1, <- app_assoc. eexists. reflexivity.
Qed.

(** X: the batch the assembler builds starts with the trace event, whose
    id is the session id, and holds one generation per turn, in turn
    order: the generation of turn [i] is named "llm-response-i", belongs
    to the session's trace, has the deterministic id of
    [turn_gen_id] (seeded by the turn's user timestamp, assistant
    timestamp and user message), and carries the turn's model, user
    message and assistant text. *)
Theorem send_to_langfuse_generations (fromisoformat : string -> option Z)
    (session_id : string) (vk_task_id : option string) (parsed : result) (now : Z)
    (pending : list (string * pending_task)) (evs : list event) :
  send_to_langfuse fromisoformat session_id vk_task_id parsed now = Ok (pending, evs) ->
  (exists tb rest, evs = TraceCreate 0 tb :: rest /\ tb_id tb = session_id)
  /\ map gen_proj (gen_bodies evs) = expected_generations session_id 0 (r_turns parsed).
Proof.
  unfold send_to_langfuse. intros H.
  destruct (res_fold (scan_step fromisoformat) (r_turns parsed) (None, None, None, None))
    as [[[[f l] m] x]|] eqn:Es; cbn [bind] in H; [|discriminate H].
  destruct (turn_loop _ _ _ _ _ _ _) as [st|] eqn:El; cbn [bind] in H; [|discriminate H].
  injection H as _ <-.
  pose proof (turn_loop_events _ _ _ _ _ _ _ _ El) as [G _].
  split.
  - clear G. pose proof (turn_loop_prefix _ _ _ _ _ _ _ _ El) as [rest Hr].
    cbn [events] in Hr. rewrite Hr. eexists _, rest. split; reflexivity.
  - rewrite G. reflexivity.
Qed.

(** Parsed logs for runs of the assembler. *)
Definition x_parsed (table : list (string * json)) (lines : list string) : result :=
  match parse_transcript (table_loads table) (c6_fs lines) "/h" "s.jsonl" with
  | Ok r => r
  | Raise _ => initial_result
  end.

Lemma send_to_langfuse_generations_witness :
  exists p evs,
    send_to_langfuse iso_model "s" None (x_parsed sc_table ["U"; "A"; "A"]) 999 = Ok (p, evs)
    /\ (exists tb rest, evs = TraceCreate 0 tb :: rest /\ tb_id tb = "s")
    /\ map gen_proj (gen_bodies evs)
       = expected_generations "s" 0 (r_turns (x_parsed sc_table ["U"; "A"; "A"])).
Proof.
  destruct (send_to_langfuse iso_model "s" None (x_parsed sc_table ["U"; "A"; "A"]) 999)
    as [[p evs]|e] eqn:E; [|vm_compute in E; discriminate E].
  exists p, evs. split; [reflexivity|].
  exact (send_to_langfuse_generations iso_model "s" None _ 999 p evs E).
Defined.

(** X: the tool spans of the batch (all spans but the umbrella spans) are,
    in order, one per tool call of each turn: each belongs to the
    session's trace, is parented under its own turn's generation (the id
    of [turn_gen_id]), is named "<activity kind>/<tool name>" and takes
    the call's input. *)
Theorem send_to_langfuse_tool_spans (fromisoformat : string -> option Z)
    (session_id : string) (vk_task_id : option string) (parsed : result) (now : Z)
    (pending : list (string * pending_task)) (evs : list event) :
  send_to_langfuse fromisoformat session_id vk_task_id parsed now = Ok (pending, evs) ->
  map span_proj (tool_span_bodies evs) = expected_tool_spans session_id (r_turns parsed).
Proof.
  unfold send_to_langfuse. intros H.
  destruct (res_fold (scan_step fromisoformat) (r_turns parsed) (None, None, None, None))
    as [[[[f l] m] x]|] eqn:Es; cbn [bind] in H; [|discriminate H].
  destruct (turn_loop _ _ _ _ _ _ _) as [st|] eqn:El; cbn [bind] in H; [|discriminate H].
  injection H as _ <-.
  destruct (turn_loop_events _ _ _ _ _ _ _ _ El) as [_ S]. rewrite S. reflexivity.
Qed.

Lemma send_to_langfuse_tool_spans_witness :
  exists p evs,
    send_to_langfuse iso_model "s" None (x_parsed sc_table ["U"; "A"; "A"]) 999 = Ok (p, evs)
    /\ map span_proj (tool_span_bodies evs)
       = expected_tool_spans "s" (r_turns (x_parsed sc_table ["U"; "A"; "A"]))
    /\ List.length (tool_span_bodies evs) = 2%nat.
Proof.
  destruct (send_to_langfuse iso_model "s" None (x_parsed sc_table ["U"; "A"; "A"]) 999)
    as [[p evs]|e] eqn:E; [|vm_compute in E; discriminate E].
  exists p, evs. split; [reflexivity|].
  split; [exact (send_to_langfuse_tool_spans iso_model "s" None _ 999 p evs E)|].
  vm_compute in E. injection E as _ <-. reflexivity.
Defined.

(** ** get_claude_account_id *)

(** [Path.home() / ".claude" / ".credentials.json"] *)
Definition credentials_path (home : string) : string := (home ++ "/.claude/.credentials.json")%string.

(** [get_claude_account_id()]: [json_load] is [json.load] on the lines of
    the file ([None] is a [JSONDecodeError]); a missing file or a
    directory is an [OSError]; these are caught and give [None]. *)
Definition get_claude_account_id (json_load : list string -> option json)
    (fs : string -> option fsnode) (home : string) : res (option string) :=
  match fs (credentials_path home) with
  | None | Some FDir => Ok None
  | Some (FFile lines) =>
      match json_load lines with
      | None => Ok None
      | Some credentials =>
          let* oauth := py_get credentials "claudeAiOauth" (JObj []) in
          let* token := py_get oauth "accessToken" JNull in
          if truthy token then
            match token with
            | JStr s => Ok (Some (substring 0 16 (SHA256.hexdigest (encode s))))
            | _ => Raise AttributeError
            end
          else Ok None
      end
  end.

Lemma substring_prefix_prefix (m n : nat) (d : string) :
  (m <= n)%nat -> substring 0 m (substring 0 n d) = substring 0 m d.
Proof.
  revert n d; induction m as [|m IH]; intros n d Hmn; [destruct d, n; reflexivity|].
  destruct n as [|n]; [lia|]. destruct d as [|c d]; [reflexivity|].
  cbn [substring]. f_equal. apply IH. lia.
Qed.

(** X: an account id, when there is one, is the first 16 characters of
    the SHA-256 hex digest of a non-empty access token: 16 lowercase
    hexadecimal characters, and the first half of the 32-character
    [generate_deterministic_id] of the token. *)
Theorem get_claude_account_id_hash (json_load : list string -> option json)
    (fs : string -> option fsnode) (home h : string) :
  get_claude_account_id json_load fs home = Ok (Some h) ->
  exists token, token <> ""
    /\ h = substring 0 16 (SHA256.hexdigest (encode token))
    /\ h = substring 0 16 (generate_deterministic_id token "")
    /\ String.length h = 16%nat
    /\ (forall c, In c (list_ascii_of_string h) -> is_hex_char c = true).
Proof.
  unfold get_claude_account_id. intros H.
  destruct (fs (credentials_path home)) as [[lines|]|]; try discriminate H.
  destruct (json_load lines) as [cred|]; [|discriminate H].
  destruct (py_get cred "claudeAiOauth" (JObj [])) as [oauth|]; cbn [bind] in H; [|discriminate H].
  destruct (py_get oauth "accessToken" JNull) as [token|]; cbn [bind] in H; [|discriminate H].
  destruct (truthy token) eqn:Et; [|discriminate H].
  destruct token as [| | |s| |]; [discriminate H .. | | discriminate H | discriminate H].
  remember (substring 0 16 (SHA256.hexdigest (encode s))) as X eqn:EX.
  injection H as <-. subst X.
  exists s. split; [|split; [reflexivity | split; [|split]]].
  - intros ->. discriminate Et.
  - unfold generate_deterministic_id. symmetry. apply substring_prefix_prefix. lia.
  - apply substring_prefix_length. rewrite hexdigest_length. lia.
  - intros c Hc. apply substring_prefix_in in Hc. eapply hexdigest_hex. exact Hc.
Qed.

Definition x_cred_fs (p : string) : option fsnode :=
  if String.eqb p (credentials_path "/h") then Some (FFile ["{...}"]) else None.
Definition x_cred_load (v : json) (lines : list string) : option json := Some v.

Lemma get_claude_account_id_hash_witness :
  exists h,
    get_claude_account_id (x_cred_load (JObj [("claudeAiOauth", JObj [("accessToken", JStr "tok")])]))
      x_cred_fs "/h" = Ok (Some h)
    /\ exists token, token <> ""
       /\ h = substring 0 16 (SHA256.hexdigest (encode token))
       /\ h = substring 0 16 (generate_deterministic_id token "")
       /\ String.length h = 16%nat
       /\ (forall c, In c (list_ascii_of_string h) -> is_hex_char c = true).
Proof.
  destruct (get_claude_account_id (x_cred_load (JObj [("claudeAiOauth", JObj [("accessToken", JStr "tok")])]))
              x_cred_fs "/h") as [[h|]|e] eqn:E;
    [| vm_compute in E; discriminate E | vm_compute in E; discriminate E].
  exists h. split; [reflexivity|]. exact (get_claude_account_id_hash _ _ _ _ E).
Defined.



(** X: credentials JSON of the wrong shape is not caught: if the decoded
    value is not a dict, or its "claudeAiOauth" entry is present but not a
    dict, or the access token is truthy but not a string, the lookup
    raises AttributeError (only OSError, JSONDecodeError and KeyError are
    handled). *)
Theorem get_claude_account_id_bad_shape (json_load : list string -> option json)
    (fs : string -> option fsnode) (home : string) (lines : list string) (cred : json) :
  fs (credentials_path home) = Some (FFile lines) -> json_load lines = Some cred ->
  ((forall o, cred <> JObj o)
   \/ (exists o v, cred = JObj o /\ assoc_get "claudeAiOauth" o = Some v /\ forall o', v <> JObj o')
   \/ (exists o o' v, cred = JObj o /\ assoc_get "claudeAiOauth" o = Some (JObj o')
                      /\ assoc_get "accessToken" o' = Some v /\ truthy v = true
                      /\ forall s, v <> JStr s)) ->
  get_claude_account_id json_load fs home = Raise AttributeError.
Proof.
  intros Hf Hl Hs. unfold get_claude_account_id. rewrite Hf, Hl.
  destruct Hs as [Hc | [[o [v [-> [Ho Hv]]]] | [o [o' [v [-> [Ho [Ho' [Ht Hv]]]]]]]]].
  - destruct cred; try reflexivity. exfalso. eapply Hc. reflexivity.
  - cbn [py_get bind]. unfold dict_get at 1. rewrite Ho.
    destruct v; try reflexivity. exfalso. eapply Hv. reflexivity.
  - cbn [py_get bind]. unfold dict_get at 1. rewrite Ho. cbn [py_get bind].
    unfold dict_get. rewrite Ho', Ht.
    destruct v; try reflexivity. exfalso. eapply Hv. reflexivity.
Qed.

Lemma get_claude_account_id_bad_shape_witness :
  get_claude_account_id (x_cred_load (JArr [])) x_cred_fs "/h" = Raise AttributeError.
Proof.
  apply (get_claude_account_id_bad_shape (x_cred_load (JArr [])) x_cred_fs "/h" ["{...}"] (JArr []));
    [reflexivity | reflexivity | left; discriminate].
Defined.

(** ** main *)




